(** * Promptify backend: session service, persistence gateway and live leaderboard

  A shallow embedding of the JavaScript sources of the repository:

  - [JsMap]                 the insertion-ordered [Map] of JavaScript;
  - [Supabase]              the hosted store as the services use it (query
                            builder, insert, update, select);
  - [GameSessionService]    the round-based session service
                            ([createSession], [updateSession],
                            [saveRound1Data] .. [saveRound3Data],
                            [getLeaderboard], [getSession]);
  - [LegacySessionService]  the earlier service used by the socket server
                            ([hashApiKey], [createSession],
                            [updateRoundData], [completeSession],
                            [getLeaderboard], [getSession]);
  - [Server]                the socket server: the three process-wide maps,
                            [broadcastLeaderboard] and the event handlers;
  - [Api]                   the REST handler that fetches a session.

  Numbers are integers ([Z]); JavaScript objects that travel to the store
  are JSON objects (ordered field lists); the player profile is a record. *)

From Stdlib Require Import List String Ascii ZArith Lia Bool Arith Permutation Sorted.
From Stdlib Require Import DecimalString.
Import ListNotations.
Local Open Scope string_scope.
Local Open Scope list_scope.

Set Implicit Arguments.
Set Warnings "-register-all".

(* ================================================================== *)
(** * JavaScript basics *)

(** Truthiness of a string value: only the empty string is falsy. *)
Definition truthy_string (s : string) : bool := negb (String.eqb s "").

(** Truthiness of a possibly absent string ([undefined] and [null] are
  falsy). *)
Definition truthy (o : option string) : bool :=
match o with
| Some s => truthy_string s
| None => false
end.

(** [a || b] on a possibly absent number: zero and absent are falsy. *)
Definition num_or (a : option Z) (b : Z) : Z :=
match a with
| Some n => if Z.eqb n 0 then b else n
| None => b
end.

(** Decimal rendering of an integer inside a template literal. *)
Definition string_of_Z (n : Z) : string := NilZero.string_of_int (Z.to_int n).

(** [s.startsWith(p)]. *)
Definition startsWith (s p : string) : bool := String.prefix p s.

(** How a function body ends: with a value or with an exception. *)
Inductive Completion (A : Type) : Type :=
| Returned (value : A)
| Thrown (message : string).

Arguments Returned {A} value.
Arguments Thrown {A} message.

(** [try { body } catch (error) { handler(error) }]. *)
Definition try_catch {A} (body : Completion A) (handler : string -> Completion A)
: Completion A :=
match body with
| Returned v => Returned v
| Thrown e => handler e
end.

(** [array.map((x, index) => f(x, index))], the index counted from [start]. *)
Fixpoint mapi_from {A B} (start : nat) (f : A -> nat -> B) (l : list A) : list B :=
match l with
| [] => []
| x :: r => f x start :: mapi_from (S start) f r
end.

Definition mapi {A B} (f : A -> nat -> B) (l : list A) : list B := mapi_from 0 f l.

(** A stable sort: [x] is placed before the first element it is not greater
  than, so elements that compare equal keep their order. *)
Fixpoint insert_sorted {A} (leb : A -> A -> bool) (x : A) (l : list A) : list A :=
match l with
| [] => [x]
| y :: r => if leb x y then x :: y :: r else y :: insert_sorted leb x r
end.

Fixpoint stable_sort {A} (leb : A -> A -> bool) (l : list A) : list A :=
match l with
| [] => []
| x :: r => insert_sorted leb x (stable_sort leb r)
end.

(** [array.sort(compare)]: [a] stays before [b] unless [compare(a, b) > 0];
  the sort is stable. *)
Definition js_sort {A} (compare : A -> A -> Z) (l : list A) : list A :=
stable_sort (fun a b => (compare a b <=? 0)%Z) l.

(* ================================================================== *)
(** * The insertion-ordered Map *)

Module JsMap.

Definition t (V : Type) : Type := list (string * V).

Definition empty {V} : t V := [].

Fixpoint get {V} (k : string) (m : t V) : option V :=
  match m with
  | [] => None
  | (k', v) :: r => if String.eqb k k' then Some v else get k r
  end.

Definition has {V} (k : string) (m : t V) : bool :=
  match get k m with
  | Some _ => true
  | None => false
  end.

(** [set] keeps the position of a known key and appends a new one. *)
Fixpoint set {V} (k : string) (v : V) (m : t V) : t V :=
  match m with
  | [] => [(k, v)]
  | (k', v') :: r =>
      if String.eqb k k' then (k, v) :: r else (k', v') :: set k v r
  end.

Fixpoint delete {V} (k : string) (m : t V) : t V :=
  match m with
  | [] => []
  | (k', v') :: r =>
      if String.eqb k k' then delete k r else (k', v') :: delete k r
  end.

Definition keys {V} (m : t V) : list string := map fst m.

(** [Array.from(m.values())]: the values in insertion order. *)
Definition values {V} (m : t V) : list V := map snd m.

(** [{ ...base, ...patch }]. *)
Definition spread {V} (base patch : t V) : t V :=
  fold_left (fun acc kv => set (fst kv) (snd kv) acc) patch base.

End JsMap.

(* ================================================================== *)
(** * JSON values and the store *)

Inductive Json : Type :=
| JNull
| JBool (b : bool)
| JNum (n : Z)
| JStr (s : string)
| JArr (items : list Json)
| JObj (fields : list (string * Json)).

(** A JavaScript object as it is sent to and received from the store. *)
Definition Row : Type := JsMap.t Json.

(** The number held by a column, [None] for NULL or any other value. *)
Definition num_col (column : string) (r : Row) : option Z :=
match JsMap.get column r with
| Some (JNum n) => Some n
| _ => None
end.

(** The string held by a column. *)
Definition str_col (column : string) (r : Row) : option string :=
match JsMap.get column r with
| Some (JStr s) => Some s
| _ => None
end.

(** Equality of the scalar values that filters compare. *)
Definition scalar_eqb (a b : Json) : bool :=
match a, b with
| JBool x, JBool y => Bool.eqb x y
| JNum x, JNum y => Z.eqb x y
| JStr x, JStr y => String.eqb x y
| _, _ => false
end.

(** Lexicographic comparison of sort keys. *)
Fixpoint lex_leb (k1 k2 : list Z) : bool :=
match k1, k2 with
| [], _ => true
| _ :: _, [] => false
| a :: r1, b :: r2 =>
    if (a <? b)%Z then true
    else if (b <? a)%Z then false
    else lex_leb r1 r2
end.

Module Supabase.

(** The client created from the configuration: the rows of the
    [game_sessions] table, the column defaults of its schema and the
    number of requests sent so far. *)
Record Client : Type := {
  defaults : Row;
  table : list Row;
  requests : nat
}.

Inductive Network : Type :=
| Online
| Offline (message : string).

(** What a call reads from its surroundings: the clock ([Date.now()] and
    [new Date().toISOString()]), the identifier the store generates for a
    new row, the state of the network and the SHA-256 hex digest of the
    [crypto] module. *)
Record Env : Type := {
  now : Z;
  uuid : string;
  iso_now : string;
  network : Network;
  sha256_hex : string -> string
}.

(** The [{ data, error }] object a request resolves to. *)
Record Reply (A : Type) : Type := {
  data : option A;
  error : option string
}.

Definition ok {A} (d : A) : Reply A := {| data := Some d; error := None |}.
Definition failed {A} (e : string) : Reply A := {| data := None; error := Some e |}.

Definition contact (c : Client) (rows : list Row) : Client :=
  {| defaults := defaults c; table := rows; requests := S (requests c) |}.

Definition matches (column : string) (v : Json) (r : Row) : bool :=
  match JsMap.get column r with
  | Some x => scalar_eqb x v
  | None => false
  end.

(** [.order(column, { ascending, nullsFirst })]. *)
Record Order : Type := {
  column : string;
  ascending : bool;
  nullsFirst : option bool
}.

(** Where NULL goes when the call does not say: last when ascending, first
    when descending. *)
Definition nulls_first (o : Order) : bool :=
  match nullsFirst o with
  | Some b => b
  | None => negb (ascending o)
  end.

(** The sort key of a row for one ordering: the position of NULL, then the
    value (negated when descending). *)
Definition order_key (o : Order) (r : Row) : list Z :=
  match num_col (column o) r with
  | Some n => [1; if ascending o then n else (- n)]%Z
  | None => [if nulls_first o then 0 else 2; 0]%Z
  end.

Definition sort_key (orders : list Order) (r : Row) : list Z :=
  flat_map (fun o => order_key o r) orders.

(** The query under construction: [.select(columns)], [.eq(...)],
    [.order(...)], [.limit(...)]. *)
Record Query : Type := {
  columns : option (list string);
  filters : list (string * Json);
  orders : list Order;
  limit_count : option nat
}.

(** [.select('*')]. *)
Definition select_all : Query :=
  {| columns := None; filters := []; orders := []; limit_count := None |}.

(** [.select('a, b, c')]. *)
Definition select (cols : list string) : Query :=
  {| columns := Some cols; filters := []; orders := []; limit_count := None |}.

Definition eq (col : string) (v : Json) (q : Query) : Query :=
  {| columns := columns q; filters := filters q ++ [(col, v)];
     orders := orders q; limit_count := limit_count q |}.

Definition order (col : string) (asc : bool) (nf : option bool) (q : Query) : Query :=
  {| columns := columns q; filters := filters q;
     orders := orders q ++ [{| column := col; ascending := asc; nullsFirst := nf |}];
     limit_count := limit_count q |}.

Definition limit (n : nat) (q : Query) : Query :=
  {| columns := columns q; filters := filters q;
     orders := orders q; limit_count := Some n |}.

Definition project (cols : option (list string)) (r : Row) : Row :=
  match cols with
  | None => r
  | Some cs =>
      flat_map (fun c => match JsMap.get c r with
                         | Some v => [(c, v)]
                         | None => []
                         end) cs
  end.

Definition selected (q : Query) (rows : list Row) : list Row :=
  filter (fun r => forallb (fun f => matches (fst f) (snd f) r) (filters q)) rows.

Definition limited (q : Query) (rows : list Row) : list Row :=
  match limit_count q with
  | Some n => firstn n rows
  | None => rows
  end.

(** The rows a query keeps, before projection: filter, order, limit. *)
Definition ordered_rows (q : Query) (rows : list Row) : list Row :=
  limited q
    (stable_sort (fun a b => lex_leb (sort_key (orders q) a) (sort_key (orders q) b))
                 (selected q rows)).

(** The rows a query returns. *)
Definition rows_of (q : Query) (rows : list Row) : list Row :=
  map (project (columns q)) (ordered_rows q rows).

(** [await query]. *)
Definition run (env : Env) (q : Query) (c : Client) : Reply (list Row) * Client :=
  match network env with
  | Offline m => (failed m, contact c (table c))
  | Online => (ok (rows_of q (table c)), contact c (table c))
  end.

(** [.single()]: exactly one row, or an error. *)
Definition single (rows : list Row) : Reply Row :=
  match rows with
  | [r] => ok r
  | _ => failed "JSON object requested, multiple (or no) rows returned"
  end.

(** [await query.single()]. *)
Definition run_single (env : Env) (q : Query) (c : Client) : Reply Row * Client :=
  match network env with
  | Offline m => (failed m, contact c (table c))
  | Online => (single (rows_of q (table c)), contact c (table c))
  end.

(** [await from(...).insert(values).select().single()]: the new row gets
    the column defaults and the identifier generated by the store; the
    identifier is the primary key. *)
Definition insert_single (env : Env) (values : Row) (c : Client) : Reply Row * Client :=
  match network env with
  | Offline m => (failed m, contact c (table c))
  | Online =>
      let row := JsMap.set "id" (JStr (uuid env)) (JsMap.spread (defaults c) values) in
      if existsb (matches "id" (JStr (uuid env))) (table c)
      then (failed "duplicate key value violates unique constraint", contact c (table c))
      else (ok row, contact c (table c ++ [row]))
  end.

Definition updated (patch : Row) (col : string) (v : Json) (rows : list Row) : list Row :=
  map (fun r => if matches col v r then JsMap.spread r patch else r) rows.

(** [await from(...).update(patch).eq(col, v)]: only the error is read.
    The rows are JSON objects compared by value: the typing of the columns
    by the schema (an identifier that must be well formed, the range of an
    integer column) and the trigger that resets [updated_at] are not part
    of these updates. *)
Definition update_eq (env : Env) (patch : Row) (col : string) (v : Json) (c : Client)
  : Reply unit * Client :=
  match network env with
  | Offline m => (failed m, contact c (table c))
  | Online => (ok tt, contact c (updated patch col v (table c)))
  end.

(** [await from(...).update(patch).eq(col, v).select().single()]. *)
Definition update_eq_single (env : Env) (patch : Row) (col : string) (v : Json) (c : Client)
  : Reply Row * Client :=
  match network env with
  | Offline m => (failed m, contact c (table c))
  | Online =>
      let rows := updated patch col v (table c) in
      (single (filter (matches col v) rows), contact c rows)
  end.

(** [await from(...).select('*', { count: 'exact', head: true })] with its
    filters: only [count] is read, and it is null when the request fails. *)
Definition run_count (env : Env) (q : Query) (c : Client) : option nat * Client :=
  match network env with
  | Offline _ => (None, contact c (table c))
  | Online => (Some (List.length (selected q (table c))), contact c (table c))
  end.

End Supabase.

(* ================================================================== *)
(** * Values shared by the two services *)

(** Truthiness of a JSON value ([undefined] is an absent field). *)
Definition json_truthy (v : Json) : bool :=
match v with
| JNull => false
| JBool b => b
| JNum n => negb (Z.eqb n 0)
| JStr s => truthy_string s
| JArr _ => true
| JObj _ => true
end.

(** [object.field || fallback]. *)
Definition field_or (object : Row) (field : string) (fallback : Json) : Json :=
match JsMap.get field object with
| Some v => if json_truthy v then v else fallback
| None => fallback
end.

(** [if (error) throw error], then the [data] of the reply. *)
Definition checked {A} (r : Supabase.Reply A) : Completion (option A) :=
match Supabase.error r with
| Some e => Thrown e
| None => Returned (Supabase.data r)
end.

(** The same followed by a read of a property of [data], which throws a
    TypeError when [data] is null. *)
Definition checked_data {A} (r : Supabase.Reply A) : Completion A :=
match checked r with
| Thrown e => Thrown e
| Returned (Some d) => Returned d
| Returned None => Thrown "TypeError: Cannot read properties of null"
end.

(** The [id] of a session object (empty when it has none). *)
Definition session_id (session : Row) : string :=
match str_col "id" session with
| Some i => i
| None => ""
end.

(** [`local-${Date.now()}`]. *)
Definition local_id (env : Supabase.Env) : string :=
String.append "local-" (string_of_Z (Supabase.now env)).

(** The [game_sessions] table. *)
Definition game_sessions (q : Supabase.Query) : Supabase.Query := q.

(* ================================================================== *)
(** * The session service with round-based saves *)

Module GameSessionService.

Import Supabase.

Definition placeholder_avatar (playerName : string) : string :=
String.append "https://api.dicebear.com/7.x/bottts/svg?seed=" playerName.

Definition local_session (env : Env) (playerName : string) : Row :=
[("id", JStr (local_id env)); ("player_name", JStr playerName)].

(** The object inserted by [createSession]. *)
Definition new_session (playerName : string) (avatarUrl : option string) : Row :=
[("player_name", JStr playerName);
 ("avatar_url", JStr (match avatarUrl with
                      | Some a => if truthy_string a then a
                                  else placeholder_avatar playerName
                      | None => placeholder_avatar playerName
                      end));
 ("total_score", JNum 0);
 ("rounds_completed", JNum 0);
 ("current_round", JNum 1);
 ("status", JStr "Playing");
 ("round1_data", JArr []);
 ("round2_data", JArr []);
 ("round3_data", JArr [])].

(** [createSession(playerName, avatarUrl = null)]. *)
Definition createSession (supabase : option Client) (env : Env)
  (playerName : string) (avatarUrl : option string)
  : Completion Row * option Client :=
match supabase with
| None => (Returned (local_session env playerName), None)
| Some c =>
    let '(reply, c') :=
      insert_single env (new_session playerName avatarUrl) c in
    (try_catch (checked_data reply)
               (fun _ => Returned (local_session env playerName)),
     Some c')
end.

(** [updateSession(sessionId, updates)]. *)
Definition updateSession (supabase : option Client) (env : Env)
  (sessionId : string) (updates : Row)
  : Completion (option Row) * option Client :=
match supabase with
| None => (Returned None, None)
| Some c =>
    if startsWith sessionId "local-" then (Returned None, Some c)
    else
      let '(reply, c') :=
        update_eq_single env
          (JsMap.spread updates [("updated_at", JStr (iso_now env))])
          "id" (JStr sessionId) c in
      (try_catch (checked reply) (fun _ => Returned None), Some c')
end.

(** The common shape of the three round saves: send the update, return
    [true] unless the reply carries an error. *)
Definition save_round (supabase : option Client) (env : Env)
  (sessionId : string) (patch : Row)
  : Completion bool * option Client :=
match supabase with
| None => (Returned false, None)
| Some c =>
    if startsWith sessionId "local-" then (Returned false, Some c)
    else
      let '(reply, c') := update_eq env patch "id" (JStr sessionId) c in
      (try_catch (match checked reply with
                  | Thrown e => Thrown e
                  | Returned _ => Returned true
                  end)
                 (fun _ => Returned false),
       Some c')
end.

(** [saveRound1Data(sessionId, subRoundsData, totalScore, totalTime)]. *)
Definition saveRound1Data (supabase : option Client) (env : Env)
  (sessionId : string) (subRoundsData : Json) (totalScore totalTime : Z)
  : Completion bool * option Client :=
save_round supabase env sessionId
  [("round1_data", subRoundsData);
   ("round1_score", JNum totalScore);
   ("round1_time", JNum totalTime);
   ("total_score", JNum totalScore);
   ("rounds_completed", JNum 1);
   ("current_round", JNum 2);
   ("status", JStr "Round 2")].

(** [saveRound2Data(sessionId, roundData, roundScore, roundTime,
    previousTotalScore)]. *)
Definition saveRound2Data (supabase : option Client) (env : Env)
  (sessionId : string) (roundData : Json)
  (roundScore roundTime previousTotalScore : Z)
  : Completion bool * option Client :=
let newTotalScore := (previousTotalScore + roundScore)%Z in
save_round supabase env sessionId
  [("round2_data", roundData);
   ("round2_score", JNum roundScore);
   ("round2_time", JNum roundTime);
   ("total_score", JNum newTotalScore);
   ("rounds_completed", JNum 2);
   ("current_round", JNum 3);
   ("status", JStr "Round 3")].

(** [saveRound3Data(sessionId, roundData, roundScore, roundTime,
    previousTotalScore, totalGameTime)]. *)
Definition saveRound3Data (supabase : option Client) (env : Env)
  (sessionId : string) (roundData : Json)
  (roundScore roundTime previousTotalScore totalGameTime : Z)
  : Completion bool * option Client :=
let newTotalScore := (previousTotalScore + roundScore)%Z in
save_round supabase env sessionId
  [("round3_data", roundData);
   ("round3_score", JNum roundScore);
   ("round3_time", JNum roundTime);
   ("total_score", JNum newTotalScore);
   ("total_time", JNum totalGameTime);
   ("rounds_completed", JNum 3);
   ("current_round", JNum 3);
   ("status", JStr "Finished")].

(** The query of [getLeaderboard]. *)
Definition leaderboard_query (limit : nat) : Query :=
Supabase.limit limit
  (order "total_time" true (Some false)
     (order "total_score" false None
        (game_sessions select_all))).

(** [getLeaderboard(limit = 50)]. *)
Definition getLeaderboard (supabase : option Client) (env : Env) (limit : option nat)
  : Completion (list Row) * option Client :=
match supabase with
| None => (Returned [], None)
| Some c =>
    let '(reply, c') :=
      run env (leaderboard_query (match limit with Some n => n | None => 50 end)) c in
    (try_catch (match checked reply with
                | Thrown e => Thrown e
                | Returned (Some rows) => Returned rows
                | Returned None => Returned []
                end)
               (fun _ => Returned []),
     Some c')
end.

(** [getSession(sessionId)]. *)
Definition getSession (supabase : option Client) (env : Env) (sessionId : string)
  : Completion (option Row) * option Client :=
match supabase with
| None => (Returned None, None)
| Some c =>
    if startsWith sessionId "local-" then (Returned None, Some c)
    else
      let '(reply, c') :=
        run_single env (eq "id" (JStr sessionId) (game_sessions select_all)) c in
      (try_catch (checked reply) (fun _ => Returned None), Some c')
end.

(** [data || []] after the error check, inside [try], with the [catch]. *)
Definition rows_or_empty (reply : Reply (list Row)) : Completion (list Row) :=
try_catch (match checked reply with
           | Thrown e => Thrown e
           | Returned (Some rows) => Returned rows
           | Returned None => Returned []
           end)
          (fun _ => Returned []).

(** The query of [getPlayerHistory]. Timestamps are ordered as numbers. *)
Definition history_query (playerName : string) : Query :=
order "created_at" false None
  (eq "player_name" (JStr playerName)
     (game_sessions select_all)).

(** [getPlayerHistory(playerName)]. *)
Definition getPlayerHistory (supabase : option Client) (env : Env) (playerName : string)
  : Completion (list Row) * option Client :=
match supabase with
| None => (Returned [], None)
| Some c =>
    let '(reply, c') := run env (history_query playerName) c in
    (rows_or_empty reply, Some c')
end.



(** What [getStats] returns. *)
Record Stats : Type := {
  totalPlayers : nat;
  completedGames : nat;
  averageScore : Z
}.

(** [Math.round(sum / count)] for a positive count: the nearest integer,
    a half rounded up. *)
Definition round_div (sum : Z) (count : nat) : Z :=
((2 * sum + Z.of_nat count) / (2 * Z.of_nat count))%Z.

(** [scores.reduce((sum, s) => sum + s.total_score, 0)]; a null score adds
    nothing. *)
Definition sum_scores (scores : list Row) : Z :=
fold_left (fun sum s => (sum + match num_col "total_score" s with
                               | Some n => n
                               | None => 0
                               end)%Z) scores 0%Z.

(** [count || 0]. *)
Definition count_or_zero (count : option nat) : nat :=
match count with
| Some n => n
| None => 0
end.

(** [getStats()]: three requests, one after the other, none of them
    checked for an error; each reads its own state of the network. *)
Definition getStats (supabase : option Client) (env1 env2 env3 : Env)
  : Completion Stats * option Client :=
match supabase with
| None =>
    (Returned {| totalPlayers := 0; completedGames := 0; averageScore := 0 |}, None)
| Some c =>
    let '(total, c1) := run_count env1 (game_sessions select_all) c in
    let '(completed, c2) :=
      run_count env2 (eq "status" (JStr "Finished") (game_sessions select_all)) c1 in
    let '(reply, c3) :=
      run env3 (eq "status" (JStr "Finished") (game_sessions (select ["total_score"]))) c2 in
    let average :=
      match data reply with
      | Some (s :: rest) => round_div (sum_scores (s :: rest)) (List.length (s :: rest))
      | _ => 0%Z
      end in
    (Returned {| totalPlayers := count_or_zero total;
                 completedGames := count_or_zero completed;
                 averageScore := average |},
     Some c3)
end.

End GameSessionService.

(* ================================================================== *)
(** * The earlier session service, used by the socket server *)

Module LegacySessionService.

Import Supabase.

(** [hashApiKey(apiKey)]: nothing for a missing key, else the first 64
    characters of the hex digest. *)
Definition hashApiKey (env : Env) (apiKey : option string) : Json :=
match apiKey with
| Some k => if truthy_string k
            then JStr (String.substring 0 64 (sha256_hex env k))
            else JNull
| None => JNull
end.

Definition local_session (env : Env) (playerName : string) : Row :=
[("id", JStr (local_id env)); ("playerName", JStr playerName)].

(** The column defaults declared by the schema file of this service
    (the two timestamps aside). *)
Definition schema_defaults : Row :=
[("api_key_hash", JNull);
 ("round1_time", JNull); ("round2_time", JNull); ("round3_time", JNull);
 ("total_time", JNull);
 ("round1_prompts", JArr []); ("round1_outputs", JArr []); ("round1_scores", JArr []);
 ("round2_prompts", JArr []); ("round2_outputs", JArr []); ("round2_score", JNum 0);
 ("round3_prompts", JArr []); ("round3_outputs", JArr []); ("round3_score", JNum 0);
 ("total_score", JNum 0);
 ("completed", JBool false)].

(** The object inserted by [createSession]. *)
Definition new_session (env : Env) (playerName : string) (apiKey : option string) : Row :=
[("player_name", JStr playerName);
 ("api_key_hash", hashApiKey env apiKey)].

(** [createSession(playerName, apiKey = null)]. *)
Definition createSession (supabase : option Client) (env : Env)
  (playerName : string) (apiKey : option string)
  : Completion Row * option Client :=
match supabase with
| None => (Returned (local_session env playerName), None)
| Some c =>
    let '(reply, c') :=
      insert_single env (new_session env playerName apiKey) c in
    (try_catch (checked_data reply)
               (fun _ => Returned (local_session env playerName)),
     Some c')
end.

(** The update object built from the round number. *)
Definition round_update (roundNumber : Json) (roundData : Row) : Row :=
if scalar_eqb roundNumber (JNum 1) then
  [("round1_prompts", field_or roundData "prompts" (JArr []));
   ("round1_outputs", field_or roundData "outputs" (JArr []));
   ("round1_scores", field_or roundData "scores" (JArr []));
   ("round1_time", field_or roundData "timeTaken" (JNum 0))]
else if scalar_eqb roundNumber (JNum 2) then
  [("round2_prompts", field_or roundData "prompts" (JArr []));
   ("round2_outputs", field_or roundData "outputs" (JArr []));
   ("round2_score", field_or roundData "score" (JNum 0));
   ("round2_time", field_or roundData "timeTaken" (JNum 0))]
else if scalar_eqb roundNumber (JNum 3) then
  [("round3_prompts", field_or roundData "prompts" (JArr []));
   ("round3_outputs", field_or roundData "outputs" (JArr []));
   ("round3_score", field_or roundData "score" (JNum 0));
   ("round3_time", field_or roundData "timeTaken" (JNum 0))]
else [].

(** [updateRoundData(sessionId, roundNumber, roundData)]. *)
Definition updateRoundData (supabase : option Client) (env : Env)
  (sessionId : string) (roundNumber : Json) (roundData : Row)
  : Completion (option Row) * option Client :=
match supabase with
| None => (Returned None, None)
| Some c =>
    if startsWith sessionId "local-" then (Returned None, Some c)
    else
      let '(reply, c') :=
        update_eq_single env (round_update roundNumber roundData)
          "id" (JStr sessionId) c in
      (try_catch (checked reply) (fun _ => Returned None), Some c')
end.

(** [completeSession(sessionId, finalData)]. *)
Definition completeSession (supabase : option Client) (env : Env)
  (sessionId : string) (finalData : Row)
  : Completion (option Row) * option Client :=
match supabase with
| None => (Returned None, None)
| Some c =>
    if startsWith sessionId "local-" then (Returned None, Some c)
    else
      let '(reply, c') :=
        update_eq_single env
          [("total_score", field_or finalData "totalScore" (JNum 0));
           ("total_time", field_or finalData "totalTime" (JNum 0));
           ("completed", JBool true)]
          "id" (JStr sessionId) c in
      (try_catch (checked reply) (fun _ => Returned None), Some c')
end.

(** The query of [getLeaderboard]. *)
Definition leaderboard_query (limit : nat) : Query :=
Supabase.limit limit
  (order "total_time" true None
     (order "total_score" false None
        (eq "completed" (JBool true)
           (game_sessions
              (select ["player_name"; "total_score"; "total_time"; "created_at"]))))).

(** [getLeaderboard(limit = 10)]. *)
Definition getLeaderboard (supabase : option Client) (env : Env) (limit : option nat)
  : Completion (list Row) * option Client :=
match supabase with
| None => (Returned [], None)
| Some c =>
    let '(reply, c') :=
      run env (leaderboard_query (match limit with Some n => n | None => 10 end)) c in
    (try_catch (match checked reply with
                | Thrown e => Thrown e
                | Returned (Some rows) => Returned rows
                | Returned None => Returned []
                end)
               (fun _ => Returned []),
     Some c')
end.

(** [getSession(sessionId)]. *)
Definition getSession (supabase : option Client) (env : Env) (sessionId : string)
  : Completion (option Row) * option Client :=
match supabase with
| None => (Returned None, None)
| Some c =>
    if startsWith sessionId "local-" then (Returned None, Some c)
    else
      let '(reply, c') :=
        run_single env (eq "id" (JStr sessionId) (game_sessions select_all)) c in
      (try_catch (checked reply) (fun _ => Returned None), Some c')
end.

(** The query of [getPlayerSessions]. Timestamps are ordered as numbers. *)
Definition player_sessions_query (playerName : string) : Query :=
order "created_at" false None
  (eq "player_name" (JStr playerName)
     (game_sessions select_all)).

(** [getPlayerSessions(playerName)]. *)
Definition getPlayerSessions (supabase : option Client) (env : Env) (playerName : string)
  : Completion (list Row) * option Client :=
match supabase with
| None => (Returned [], None)
| Some c =>
    let '(reply, c') := run env (player_sessions_query playerName) c in
    (try_catch (match checked reply with
                | Thrown e => Thrown e
                | Returned (Some rows) => Returned rows
                | Returned None => Returned []
                end)
               (fun _ => Returned []),
     Some c')
end.

End LegacySessionService.

(* ================================================================== *)
(** * The socket server *)

Module Server.

Import Supabase.

(** A player of the live scoreboard. [extra] holds the fields a progress
    event added beyond the five the join handler creates. *)
Record PlayerProfile : Type := {
  username : string;
  avatarUrl : option string;
  score : Z;
  status : string;
  isBot : bool;
  extra : JsMap.t Z
}.

(** The payload of a [join] event. *)
Record UserData : Type := {
  join_username : string;
  join_avatarUrl : option string;
  join_apiKey : option string
}.

(** The payload of an [update_progress] event: the fields it carries. *)
Record Progress : Type := {
  new_username : option string;
  new_avatarUrl : option (option string);
  new_score : option Z;
  new_status : option string;
  new_isBot : option bool;
  new_extra : JsMap.t Z
}.

(** An entry of the broadcast leaderboard: [{ ...p, rank }]. *)
Record LeaderboardEntry : Type := {
  player : PlayerProfile;
  rank : nat
}.

(** What the server emits. *)
Inductive Outbound : Type :=
| leaderboard_update (allPlayers : list LeaderboardEntry)
| session_created (socket : string) (sessionId : string).

(** A [join] handler suspended at [await createSession(...)]: the socket,
    the player key and what the call resolves to. *)
Record PendingJoin : Type := {
  pending_socket : string;
  pending_playerKey : string;
  pending_session : Completion Row
}.

(** The game state of the process, the store client, and the suspended
    handlers. *)
Record State : Type := {
  socketPlayers : JsMap.t string;
  persistentPlayers : JsMap.t PlayerProfile;
  playerSessions : JsMap.t string;
  supabase : option Client;
  pending : list PendingJoin
}.

Definition initial (client : option Client) : State :=
{| socketPlayers := JsMap.empty;
   persistentPlayers := JsMap.empty;
   playerSessions := JsMap.empty;
   supabase := client;
   pending := [] |}.

(** The ranked list sent by [broadcastLeaderboard]. *)
Definition leaderboard (players : JsMap.t PlayerProfile) : list LeaderboardEntry :=
mapi (fun p index => {| player := p; rank := index + 1 |})
     (js_sort (fun a b => (score b - score a)%Z) (JsMap.values players)).

Definition broadcastLeaderboard (st : State) : Outbound :=
leaderboard_update (leaderboard (persistentPlayers st)).

(** [player.avatarUrl = url]. *)
Definition set_avatarUrl (p : PlayerProfile) (url : option string) : PlayerProfile :=
{| username := username p; avatarUrl := url; score := score p;
   status := status p; isBot := isBot p; extra := extra p |}.

(** [{ ...player, ...data }]. *)
Definition merge (p : PlayerProfile) (data : Progress) : PlayerProfile :=
{| username := match new_username data with Some v => v | None => username p end;
   avatarUrl := match new_avatarUrl data with Some v => v | None => avatarUrl p end;
   score := match new_score data with Some v => v | None => score p end;
   status := match new_status data with Some v => v | None => status p end;
   isBot := match new_isBot data with Some v => v | None => isBot p end;
   extra := JsMap.spread (extra p) (new_extra data) |}.

(** The profile the join handler starts from for an unknown name. *)
Definition new_player (userData : UserData) : PlayerProfile :=
{| username := join_username userData;
   avatarUrl := join_avatarUrl userData;
   score := 0;
   status := "Just Joined";
   isBot := false;
   extra := JsMap.empty |}.

(** The profile the join handler stores: the known one or a new one, its
    avatar overwritten when the event carries one. *)
Definition joining_player (userData : UserData) (players : JsMap.t PlayerProfile)
  : PlayerProfile :=
let player :=
  match JsMap.get (join_username userData) players with
  | Some p => p
  | None => new_player userData
  end in
if truthy (join_avatarUrl userData)
then set_avatarUrl player (join_avatarUrl userData)
else player.

(** The [join] handler up to its end or to the [await]: the profile is
    looked up or created, the avatar overwritten when one is given, the two
    maps set; then either the known session identifier is sent back, or
    [createSession] is called and the handler waits for it. *)
Definition on_join (socket : string) (userData : UserData) (env : Env) (st : State)
  : State * list Outbound :=
let playerKey := join_username userData in
let player := joining_player userData (persistentPlayers st) in
let players := JsMap.set playerKey player (persistentPlayers st) in
let sockets := JsMap.set socket playerKey (socketPlayers st) in
match JsMap.get playerKey (playerSessions st) with
| None =>
    let '(session, client) :=
      LegacySessionService.createSession (supabase st) env
        (join_username userData) (join_apiKey userData) in
    ({| socketPlayers := sockets;
        persistentPlayers := players;
        playerSessions := playerSessions st;
        supabase := client;
        pending := pending st ++ [{| pending_socket := socket;
                                     pending_playerKey := playerKey;
                                     pending_session := session |}] |},
     [])
| Some sessionId =>
    let st' := {| socketPlayers := sockets;
                  persistentPlayers := players;
                  playerSessions := playerSessions st;
                  supabase := supabase st;
                  pending := pending st |} in
    (st', [session_created socket sessionId; broadcastLeaderboard st'])
end.

Fixpoint remove_nth {A} (i : nat) (l : list A) : list A :=
match l, i with
| [], _ => []
| _ :: r, O => r
| x :: r, S j => x :: remove_nth j r
end.

(** The rest of the [join] handler, run when the [i]-th pending call has
    resolved: the session identifier is remembered, sent back, and the
    leaderboard broadcast. A call that threw would end the handler. *)
Definition on_session (i : nat) (st : State) : State * list Outbound :=
match nth_error (pending st) i with
| None => (st, [])
| Some p =>
    match pending_session p with
    | Thrown _ =>
        ({| socketPlayers := socketPlayers st;
            persistentPlayers := persistentPlayers st;
            playerSessions := playerSessions st;
            supabase := supabase st;
            pending := remove_nth i (pending st) |}, [])
    | Returned session =>
        let st' := {| socketPlayers := socketPlayers st;
                      persistentPlayers := persistentPlayers st;
                      playerSessions :=
                        JsMap.set (pending_playerKey p) (session_id session)
                                  (playerSessions st);
                      supabase := supabase st;
                      pending := remove_nth i (pending st) |} in
        (st', [session_created (pending_socket p) (session_id session);
               broadcastLeaderboard st'])
    end
end.

(** The [update_progress] handler. *)
Definition on_update_progress (socket : string) (data : Progress) (st : State)
  : State * list Outbound :=
match JsMap.get socket (socketPlayers st) with
| Some playerKey =>
    if truthy_string playerKey then
      match JsMap.get playerKey (persistentPlayers st) with
      | Some player =>
          let st' := {| socketPlayers := socketPlayers st;
                        persistentPlayers :=
                          JsMap.set playerKey (merge player data) (persistentPlayers st);
                        playerSessions := playerSessions st;
                        supabase := supabase st;
                        pending := pending st |} in
          (st', [broadcastLeaderboard st'])
      | None => (st, [])
      end
    else (st, [])
| None => (st, [])
end.

(** The fields of [data] copied into a new object literal. *)
Definition pick (fields : list string) (data : Row) : Row :=
flat_map (fun f => match JsMap.get f data with
                   | Some v => [(f, v)]
                   | None => []
                   end) fields.

Definition with_client (st : State) (client : option Client) : State :=
{| socketPlayers := socketPlayers st;
   persistentPlayers := persistentPlayers st;
   playerSessions := playerSessions st;
   supabase := client;
   pending := pending st |}.

(** The session identifier of the player bound to a socket, when both the
    player key and the identifier are truthy. *)
Definition session_of (socket : string) (st : State) : option string :=
match JsMap.get socket (socketPlayers st) with
| Some playerKey =>
    if truthy_string playerKey then
      match JsMap.get playerKey (playerSessions st) with
      | Some sessionId => if truthy_string sessionId then Some sessionId else None
      | None => None
      end
    else None
| None => None
end.

(** The [round_complete] handler. *)
Definition on_round_complete (socket : string) (data : Row) (env : Env) (st : State)
  : State * list Outbound :=
match session_of socket st with
| Some sessionId =>
    let roundNumber := match JsMap.get "roundNumber" data with
                       | Some v => v
                       | None => JNull
                       end in
    let '(_, client) :=
      LegacySessionService.updateRoundData (supabase st) env sessionId roundNumber
        (pick ["prompts"; "outputs"; "scores"; "score"; "timeTaken"] data) in
    (with_client st client, [])
| None => (st, [])
end.

(** The [game_complete] handler. *)
Definition on_game_complete (socket : string) (data : Row) (env : Env) (st : State)
  : State * list Outbound :=
match session_of socket st with
| Some sessionId =>
    let '(_, client) :=
      LegacySessionService.completeSession (supabase st) env sessionId
        (pick ["totalScore"; "totalTime"] data) in
    (with_client st client, [])
| None => (st, [])
end.

(** The [disconnect] handler. *)
Definition on_disconnect (socket : string) (st : State) : State * list Outbound :=
match JsMap.get socket (socketPlayers st) with
| Some playerKey =>
    if truthy_string playerKey then
      ({| socketPlayers := JsMap.delete socket (socketPlayers st);
          persistentPlayers := persistentPlayers st;
          playerSessions := playerSessions st;
          supabase := supabase st;
          pending := pending st |}, [])
    else (st, [])
| None => (st, [])
end.

(** What the event loop runs, one at a time: a socket event, or the
    continuation of a suspended [join] handler. *)
Inductive Event : Type :=
| connection (socket : string)
| join (socket : string) (userData : UserData) (env : Env)
| session_resolved (i : nat)
| update_progress (socket : string) (data : Progress)
| round_complete (socket : string) (data : Row) (env : Env)
| game_complete (socket : string) (data : Row) (env : Env)
| disconnect (socket : string).

Definition handle (e : Event) (st : State) : State * list Outbound :=
match e with
| connection _ => (st, [broadcastLeaderboard st])
| join socket userData env => on_join socket userData env st
| session_resolved i => on_session i st
| update_progress socket data => on_update_progress socket data st
| round_complete socket data env => on_round_complete socket data env st
| game_complete socket data env => on_game_complete socket data env st
| disconnect socket => on_disconnect socket st
end.

(** The state after a list of events, and everything emitted on the way. *)
Fixpoint run (events : list Event) (st : State) : State * list Outbound :=
match events with
| [] => (st, [])
| e :: rest =>
    let '(st1, out1) := handle e st in
    let '(st2, out2) := run rest st1 in
    (st2, out1 ++ out2)
end.

(** The states the process can be in. *)
Definition reachable (st : State) : Prop :=
exists client events, fst (run events (initial client)) = st.

End Server.

(* ================================================================== *)
(** * The REST handler that fetches a session *)

Module Api.

Import Supabase.

Record Response : Type := {
  http_status : nat;
  body : Row
}.

(** [GET /api/sessions/:sessionId]. *)
Definition get_session (supabase : option Client) (env : Env) (sessionId : string)
  : Response * option Client :=
let '(result, client) := GameSessionService.getSession supabase env sessionId in
(match result with
 | Thrown _ =>
     {| http_status := 500; body := [("error", JStr "Failed to fetch session")] |}
 | Returned None =>
     {| http_status := 404; body := [("error", JStr "Session not found")] |}
 | Returned (Some session) =>
     {| http_status := 200;
        body := [("success", JBool true); ("session", JObj session)] |}
 end, client).

(** [res.json(body)] and [res.status(code).json(body)]. *)
Definition json (body : Row) : Response := {| http_status := 200; body := body |}.

Definition status_json (code : nat) (body : Row) : Response :=
{| http_status := code; body := body |}.


(** [POST /api/sessions]: the body fields [playerName] and [avatarUrl]. *)
Definition create_session (supabase : option Client) (env : Env)
  (playerName avatarUrl : option string)
  : Response * option Client :=
if negb (truthy playerName)
then (status_json 400 [("error", JStr "Player name is required")], supabase)
else
  let name := match playerName with Some n => n | None => "" end in
  let '(result, client) := GameSessionService.createSession supabase env name avatarUrl in
  (match result with
   | Thrown _ => status_json 500 [("error", JStr "Failed to create session")]
   | Returned session => json [("success", JBool true); ("session", JObj session)]
   end, client).


(** The answer of the three round routes to the result of the save. *)
Definition round_response (result : Completion bool) (saved failure : string) : Response :=
match result with
| Thrown _ => status_json 500 [("error", JStr failure)]
| Returned ok =>
    json [("success", JBool ok);
          ("message", JStr (if ok then saved else "Failed to save"))]
end.




End Api.

(* ================================================================== *)
(** * Reading the store *)

(** The stored rows of a session. *)
Definition session_rows (sessionId : string) (supabase : option Supabase.Client) : list Row :=
match supabase with
| Some c => filter (Supabase.matches "id" (JStr sessionId)) (Supabase.table c)
| None => []
end.



(** A shorter time first, a session without a time last. *)
Definition time_not_after (a b : Row) : Prop :=
match num_col "total_time" a, num_col "total_time" b with
| Some ta, Some tb => (ta <= tb)%Z
| None, Some _ => False
| _, None => True
end.

(** The order of the persisted leaderboard: total score descending, ties
    broken by total time ascending. *)
Definition ranked_before (a b : Row) : Prop :=
forall sa sb,
  num_col "total_score" a = Some sa -> num_col "total_score" b = Some sb ->
  (sb <= sa)%Z /\ (sa = sb -> time_not_after a b).

(** The order of the persisted leaderboard on every pair of rows: a session
    without a total score first, then total score descending, ties broken
    by total time ascending with a session without a time last. *)
Definition leaderboard_before (a b : Row) : Prop :=
match num_col "total_score" a, num_col "total_score" b with
| None, None => time_not_after a b
| None, Some _ => True
| Some _, None => False
| Some sa, Some sb => (sb < sa)%Z \/ (sa = sb /\ time_not_after a b)
end.

(** The stored sessions whose [completed] flag is set. *)
Definition completed_rows (c : Supabase.Client) : list Row :=
filter (Supabase.matches "completed" (JBool true)) (Supabase.table c).

(** A hexadecimal digit. *)
Definition is_hex (ch : ascii) : bool :=
let n := nat_of_ascii ch in
(Nat.leb 48 n && Nat.leb n 57) || (Nat.leb 97 n && Nat.leb n 102)
|| (Nat.leb 65 n && Nat.leb n 70).

(** [count] hexadecimal digits at the head of a string, and what follows
    them. *)
Fixpoint take_hex (count : nat) (s : string) : option string :=
match count with
| O => Some s
| S n =>
    match s with
    | String ch rest => if is_hex ch then take_hex n rest else None
    | EmptyString => None
    end
end.

(** [count] hexadecimal digits followed by a hyphen, and what follows. *)
Definition take_group (count : nat) (s : string) : option string :=
match take_hex count s with
| Some (String "-" rest) => Some rest
| _ => None
end.

(** An identifier as the store writes one: 8-4-4-4-12 hexadecimal digits. *)
Definition is_uuid (s : string) : bool :=
match take_group 8 s with
| Some s1 =>
    match take_group 4 s1 with
    | Some s2 =>
        match take_group 4 s2 with
        | Some s3 =>
            match take_group 4 s3 with
            | Some s4 =>
                match take_hex 12 s4 with
                | Some EmptyString => true
                | _ => false
                end
            | None => false
            end
        | None => false
        end
    | None => false
    end
| None => false
end.

(** A number that an INTEGER column holds. *)
Definition is_integer (v : Json) : Prop :=
exists n, v = JNum n /\ (- 2147483648 <= n <= 2147483647)%Z.

(** A later creation time first. *)
Definition newer_first (a b : Row) : Prop :=
forall ta tb,
  num_col "created_at" a = Some ta -> num_col "created_at" b = Some tb ->
  (tb <= ta)%Z.

(** The total score of a row, zero when it has none. *)
Definition score_of (r : Row) : Z :=
match num_col "total_score" r with
| Some n => n
| None => 0%Z
end.

(** The stored sessions whose status is "Finished". *)
Definition finished (c : Supabase.Client) : list Row :=
filter (Supabase.matches "status" (JStr "Finished")) (Supabase.table c).

(* ================================================================== *)
(** * The properties as the specification words them *)

Module Spec.

Import Server.

(** The live profile has no elapsed-time attribute: a time that a client
    reports reaches the scoreboard only as an extra field of a progress
    event. It is read here from the field [totalTime], zero when absent. *)
Definition elapsedTime (p : PlayerProfile) : Z :=
match JsMap.get "totalTime" (extra p) with
| Some t => t
| None => 0%Z
end.

(** Score descending. *)
Definition score_descending (a b : LeaderboardEntry) : Prop :=
(score (player b) <= score (player a))%Z.

(** Score descending, ties broken by ascending time. *)
Definition score_then_time (time : PlayerProfile -> Z) (a b : LeaderboardEntry) : Prop :=
(score (player b) < score (player a))%Z \/
(score (player a) = score (player b) /\ (time (player a) <= time (player b))%Z).

(** [sub] occurs in [s]. *)
Definition contains (s sub : string) : Prop :=
exists before after, s = String.append before (String.append sub after).

(** The profiles of a given score. *)
Definition scoring (s : Z) (p : PlayerProfile) : bool := (score p =? s)%Z.

(** Every profile is stored under its own name. *)
Definition named (st : State) : Prop :=
Forall (fun kv => username (snd kv) = fst kv) (persistentPlayers st).

(** Events other than progress reports. *)
Definition not_progress (e : Event) : Prop :=
match e with
| update_progress _ _ => False
| _ => True
end.

(** The session of a player is settled: its identifier is remembered and no
    join under that name is still waiting for [createSession]. *)
Definition settled (name sessionId : string) (st : State) : Prop :=
JsMap.get name (playerSessions st) = Some sessionId /\
Forall (fun p => pending_playerKey p <> name) (pending st).

(** The shape every reachable state has: each map holds a key once, and
    every bound socket names a player of the scoreboard. *)
Record well_formed (st : State) : Prop := {
  players_once : NoDup (JsMap.keys (persistentPlayers st));
  sockets_once : NoDup (JsMap.keys (socketPlayers st));
  sessions_once : NoDup (JsMap.keys (playerSessions st));
  bound_is_known : forall socket playerKey,
    JsMap.get socket (socketPlayers st) = Some playerKey ->
    JsMap.get playerKey (persistentPlayers st) <> None
}.

End Spec.

(* ================================================================== *)
(** * Concrete environments, events and stores *)

(** Two readings of the surroundings with the store reachable, 50 ms
    apart, and one with the store out of reach. *)
Definition first_env : Supabase.Env :=
{| Supabase.now := 1700000000000;
   Supabase.uuid := "4b1d6e0a-0000-4000-8000-000000000001";
   Supabase.iso_now := "2023-11-14T22:13:20.000Z";
   Supabase.network := Supabase.Online;
   Supabase.sha256_hex := fun s => s |}.

Definition second_env : Supabase.Env :=
{| Supabase.now := 1700000000050;
   Supabase.uuid := "4b1d6e0a-0000-4000-8000-000000000002";
   Supabase.iso_now := "2023-11-14T22:13:20.050Z";
   Supabase.network := Supabase.Online;
   Supabase.sha256_hex := fun s => s |}.

Definition offline_env : Supabase.Env :=
{| Supabase.now := 1700000000000;
   Supabase.uuid := "4b1d6e0a-0000-4000-8000-000000000003";
   Supabase.iso_now := "2023-11-14T22:13:20.000Z";
   Supabase.network := Supabase.Offline "fetch failed";
   Supabase.sha256_hex := fun s => s |}.

(** A [join] payload with a name only. *)
Definition join_as (name : string) : Server.UserData :=
{| Server.join_username := name;
   Server.join_avatarUrl := None;
   Server.join_apiKey := None |}.

(** An [update_progress] payload with a score and a [totalTime]. *)
Definition report (points time : Z) : Server.Progress :=
{| Server.new_username := None;
   Server.new_avatarUrl := None;
   Server.new_score := Some points;
   Server.new_status := None;
   Server.new_isBot := None;
   Server.new_extra := [("totalTime", time)] |}.

(** The session identifiers sent back to sockets. *)
Definition sessions_sent (out : list Server.Outbound) : list (string * string) :=
flat_map (fun o => match o with
                   | Server.session_created socket sessionId => [(socket, sessionId)]
                   | Server.leaderboard_update _ => []
                   end) out.

(** Alice and bob join and report the same score; alice, who joined first,
    reports the longer time. *)
Definition tied_game : list Server.Event :=
[Server.connection "s1";
 Server.join "s1" (join_as "alice") first_env;
 Server.session_resolved 0;
 Server.connection "s2";
 Server.join "s2" (join_as "bob") first_env;
 Server.session_resolved 0;
 Server.update_progress "s1" (report 10 9000);
 Server.update_progress "s2" (report 10 1000)].

(** The empty table of the earlier service. *)
Definition empty_client : Supabase.Client :=
{| Supabase.defaults := LegacySessionService.schema_defaults;
   Supabase.table := [];
   Supabase.requests := 0 |}.

(** Two joins under one name, the second arriving while the first is still
    waiting for [createSession]; then the two calls resolve. *)
Definition overlapping_joins : list Server.Event :=
[Server.join "s1" (join_as "alice") first_env;
 Server.join "s2" (join_as "alice") second_env;
 Server.session_resolved 0;
 Server.session_resolved 0].

(** A player connects and joins under the empty name. *)
Definition nameless_game : list Server.Event :=
[Server.connection "s1";
 Server.join "s1" (join_as "") first_env;
 Server.session_resolved 0].

(** A player connects and joins as alice, without an avatar. *)
Definition alice_game : list Server.Event :=
[Server.connection "s1";
 Server.join "s1" (join_as "alice") first_env;
 Server.session_resolved 0].

(** The empty table of the round-based service. Its schema is not part of
    the sources: no column default is assumed. *)
Definition no_rows : Supabase.Client :=
{| Supabase.defaults := [];
   Supabase.table := [];
   Supabase.requests := 0 |}.

(** The store after a session was created for alice, and the identifier of
    that session. *)
Definition alice_store : option Supabase.Client :=
snd (GameSessionService.createSession (Some no_rows) first_env "alice" None).


Definition alice_id : string := "4b1d6e0a-0000-4000-8000-000000000001".

(** Alice's session after round 1 was saved with 10 points in 5000 ms, and
    after round 2 was then saved with 15 points in 3000 ms. *)
Definition after_round1 : option Supabase.Client :=
snd (GameSessionService.saveRound1Data alice_store second_env alice_id (JArr []) 10 5000).

Definition after_round2 : option Supabase.Client :=
snd (GameSessionService.saveRound2Data after_round1 second_env alice_id (JArr []) 15 3000 10).



(** An update of alice's session that carries a time of its own. *)
Definition avatar_update : Row :=
[("avatar_url", JStr "https://example.org/alice.png");
 ("updated_at", JStr "1999-01-01T00:00:00.000Z")].

Definition updated_row : Row :=
match fst (GameSessionService.updateSession alice_store second_env alice_id avatar_update) with
| Returned (Some r) => r
| _ => []
end.

(** Alice joined through the socket s1 with the store of the earlier
    service reachable: the state of the server, its client and the stored
    row. *)
Definition joined_state : Server.State :=
fst (Server.run [Server.connection "s1";
                 Server.join "s1" (join_as "alice") first_env;
                 Server.session_resolved 0]
                (Server.initial (Some empty_client))).

Definition joined_client : Supabase.Client :=
match Server.supabase joined_state with
| Some c => c
| None => empty_client
end.

Definition joined_row : Row :=
match Supabase.table joined_client with
| r :: _ => r
| [] => []
end.

(** The totals a client reports at the end of a game, and the data of a
    second round. *)
Definition totals : Row := [("totalScore", JNum 40); ("totalTime", JNum 90000)].

Definition second_round : Row :=
[("prompts", JArr [JStr "a prompt"]); ("outputs", JArr [JStr "an output"]);
 ("score", JNum 15); ("timeTaken", JNum 3000)].

(** Bob overtakes alice after the tied game. *)
Definition bob_leads : list Server.Event :=
tied_game ++ [Server.update_progress "s2" (report 50 1000)].

(* ================================================================== *)
(** * Facts about the Map *)

Section JsMapFacts.

Context {V : Type}.
Implicit Types (m : JsMap.t V) (k : string) (v : V).

Lemma get_set m k k' v :
  JsMap.get k' (JsMap.set k v m) = if String.eqb k' k then Some v else JsMap.get k' m.
Proof.
  induction m as [|[k0 v0] r IH]; simpl.
  - reflexivity.
  - destruct (String.eqb k k0) eqn:E; simpl.
    + apply String.eqb_eq in E; subst k0.
      destruct (String.eqb k' k); reflexivity.
    + rewrite IH. destruct (String.eqb k' k0) eqn:E0; [|reflexivity].
      apply String.eqb_eq in E0; subst k0.
      rewrite String.eqb_sym, E. reflexivity.
Qed.

Lemma get_set_same m k v : JsMap.get k (JsMap.set k v m) = Some v.
Proof. rewrite get_set, String.eqb_refl. reflexivity. Qed.

Lemma get_set_other m k k' v :
  k' <> k -> JsMap.get k' (JsMap.set k v m) = JsMap.get k' m.
Proof.
  intros H. rewrite get_set. apply String.eqb_neq in H. rewrite H. reflexivity.
Qed.

Lemma get_delete m k k' :
  JsMap.get k' (JsMap.delete k m) = if String.eqb k' k then None else JsMap.get k' m.
Proof.
  induction m as [|[k0 v0] r IH]; simpl.
  - destruct (String.eqb k' k); reflexivity.
  - destruct (String.eqb k k0) eqn:E; simpl.
    + apply String.eqb_eq in E; subst k0. rewrite IH.
      destruct (String.eqb k' k); reflexivity.
    + rewrite IH. destruct (String.eqb k' k0) eqn:E0; [|reflexivity].
      apply String.eqb_eq in E0; subst k0.
      rewrite String.eqb_sym, E. reflexivity.
Qed.

Lemma get_In_keys m k : JsMap.get k m <> None <-> In k (JsMap.keys m).
Proof.
  induction m as [|[k0 v0] r IH]; simpl.
  - split; [congruence | tauto].
  - destruct (String.eqb k k0) eqn:E.
    + apply String.eqb_eq in E; subst. split; [auto | congruence].
    + apply String.eqb_neq in E. rewrite IH. split; [auto | intros [H|H]; congruence].
Qed.

Lemma keys_set_known m k v :
  JsMap.get k m <> None -> JsMap.keys (JsMap.set k v m) = JsMap.keys m.
Proof.
  induction m as [|[k0 v0] r IH]; simpl; [congruence|].
  destruct (String.eqb k k0) eqn:E; simpl.
  - apply String.eqb_eq in E; subst. reflexivity.
  - intros H. f_equal. apply IH, H.
Qed.

Lemma keys_set_new m k v :
  JsMap.get k m = None -> JsMap.keys (JsMap.set k v m) = JsMap.keys m ++ [k].
Proof.
  induction m as [|[k0 v0] r IH]; simpl; [reflexivity|].
  destruct (String.eqb k k0) eqn:E; simpl; [congruence|].
  intros H. f_equal. apply IH, H.
Qed.

Lemma NoDup_keys_set m k v :
  NoDup (JsMap.keys m) -> NoDup (JsMap.keys (JsMap.set k v m)).
Proof.
  intros Hnd. destruct (JsMap.get k m) eqn:E.
  - rewrite keys_set_known; [assumption | congruence].
  - rewrite keys_set_new by assumption.
    apply (Permutation_NoDup (Permutation_cons_append (JsMap.keys m) k)).
    constructor; [|assumption].
    intros Hin. apply get_In_keys in Hin. congruence.
Qed.

Lemma keys_delete_incl m k : incl (JsMap.keys (JsMap.delete k m)) (JsMap.keys m).
Proof.
  induction m as [|[k0 v0] r IH]; simpl; [apply incl_refl|].
  destruct (String.eqb k k0).
  - apply incl_tl, IH.
  - apply incl_cons; [left; reflexivity | apply incl_tl, IH].
Qed.

Lemma NoDup_keys_delete m k :
  NoDup (JsMap.keys m) -> NoDup (JsMap.keys (JsMap.delete k m)).
Proof.
  induction m as [|[k0 v0] r IH]; simpl; [auto|].
  intros Hnd. inversion Hnd as [|? ? Hnot Hr]; subst.
  destruct (String.eqb k k0); [auto|].
  simpl. constructor; [|auto].
  intros Hin. apply Hnot. apply (keys_delete_incl r k), Hin.
Qed.

(** The value of a field after a spread: the last write of the patch, or
    the base. *)
Lemma get_spread (base patch : JsMap.t V) k :
  JsMap.get k (JsMap.spread base patch) =
  match JsMap.get k (rev patch) with
  | Some v => Some v
  | None => JsMap.get k base
  end.
Proof.
  unfold JsMap.spread. revert base.
  induction patch as [|[k0 v0] r IH] using rev_ind; intros base; simpl.
  - reflexivity.
  - rewrite fold_left_app, rev_app_distr. simpl.
    rewrite get_set. destruct (String.eqb k k0); [reflexivity | apply IH].
Qed.

End JsMapFacts.

(* ================================================================== *)
(** * Facts about sorting and indexed maps *)

Section SortFacts.

Context {A : Type} (leb : A -> A -> bool).

Lemma insert_sorted_perm x l : Permutation (insert_sorted leb x l) (x :: l).
Proof.
  induction l as [|y r IH]; simpl.
  - apply Permutation_refl.
  - destruct (leb x y).
    + apply Permutation_refl.
    + eapply Permutation_trans; [apply perm_skip, IH | apply perm_swap].
Qed.

Lemma stable_sort_perm l : Permutation (stable_sort leb l) l.
Proof.
  induction l as [|x r IH]; simpl.
  - apply Permutation_refl.
  - eapply Permutation_trans; [apply insert_sorted_perm | apply perm_skip, IH].
Qed.

Lemma stable_sort_length l : List.length (stable_sort leb l) = List.length l.
Proof. apply Permutation_length, stable_sort_perm. Qed.

Hypothesis leb_total : forall a b, leb a b = false -> leb b a = true.
Hypothesis leb_trans : forall a b c, leb a b = true -> leb b c = true -> leb a c = true.

Lemma insert_sorted_sorted x l :
  StronglySorted (fun a b => leb a b = true) l ->
  StronglySorted (fun a b => leb a b = true) (insert_sorted leb x l).
Proof.
  induction 1 as [|y r Hs IH Hall]; simpl.
  - repeat constructor.
  - destruct (leb x y) eqn:E.
    + constructor; [constructor; assumption|].
      constructor; [assumption|].
      eapply Forall_impl; [|exact Hall]. intros z Hz. eauto.
    + constructor; [assumption|].
      apply (Permutation_Forall (Permutation_sym (insert_sorted_perm x r))).
      constructor; [auto | assumption].
Qed.

Lemma stable_sort_sorted l : StronglySorted (fun a b => leb a b = true) (stable_sort leb l).
Proof.
  induction l as [|x r IH]; simpl.
  - constructor.
  - apply insert_sorted_sorted, IH.
Qed.

End SortFacts.

Section Stability.

Context {A : Type} (leb : A -> A -> bool) (same : A -> bool).

(** Elements of one class are never greater than one another. *)
Hypothesis same_leb : forall a b, same a = true -> same b = true -> leb a b = true.

Lemma insert_sorted_filter x l :
  filter same (insert_sorted leb x l) = filter same (x :: l).
Proof.
  induction l as [|y r IH]; simpl; [reflexivity|].
  destruct (leb x y) eqn:E; simpl; [reflexivity|].
  rewrite IH. simpl.
  destruct (same x) eqn:Ex, (same y) eqn:Ey; try reflexivity.
  rewrite (same_leb Ex Ey) in E. discriminate.
Qed.

(** A stable sort keeps the elements of one class in their order. *)
Lemma stable_sort_filter l : filter same (stable_sort leb l) = filter same l.
Proof.
  induction l as [|x r IH]; simpl; [reflexivity|].
  rewrite insert_sorted_filter. simpl. rewrite IH. reflexivity.
Qed.

End Stability.

Lemma mapi_from_length {A B} (f : A -> nat -> B) l start :
  List.length (mapi_from start f l) = List.length l.
Proof.
  revert start. induction l as [|x r IH]; intros start; simpl; [reflexivity|].
  rewrite IH. reflexivity.
Qed.

Lemma mapi_from_map {A B C} (g : B -> C) (h : A -> C) (f : A -> nat -> B) l start :
  (forall x i, g (f x i) = h x) ->
  map g (mapi_from start f l) = map h l.
Proof.
  intros H. revert start. induction l as [|x r IH]; intros start; simpl; [reflexivity|].
  rewrite H, IH. reflexivity.
Qed.

Lemma mapi_from_index {A B} (g : B -> nat) (f : A -> nat -> B) l start :
  (forall x i, g (f x i) = i + 1) ->
  map g (mapi_from start f l) = seq (start + 1) (List.length l).
Proof.
  intros H. revert start. induction l as [|x r IH]; intros start; simpl; [reflexivity|].
  rewrite H, IH. reflexivity.
Qed.

Lemma StronglySorted_map {A B} (R : B -> B -> Prop) (f : A -> B) l :
  StronglySorted R (map f l) -> StronglySorted (fun a b => R (f a) (f b)) l.
Proof.
  induction l as [|x r IH]; simpl; intros H.
  - constructor.
  - inversion H as [|? ? Hs Hall]; subst. constructor; [auto|].
    apply Forall_forall. intros y Hy.
    rewrite Forall_forall in Hall. apply Hall, in_map, Hy.
Qed.

Lemma StronglySorted_weaken {A} (R R' : A -> A -> Prop) l :
  (forall a b, R a b -> R' a b) -> StronglySorted R l -> StronglySorted R' l.
Proof.
  intros HR. induction 1 as [|x r Hs IH Hall]; constructor; [assumption|].
  eapply Forall_impl; [|exact Hall]. intros; auto.
Qed.

(* ================================================================== *)
(** * The live leaderboard *)

Section Leaderboard.

Import Server Spec.

Lemma leaderboard_players players :
  map player (leaderboard players) =
  js_sort (fun a b => (score b - score a)%Z) (JsMap.values players).
Proof.
  unfold leaderboard, mapi.
  rewrite (mapi_from_map player (fun p => p)); [apply map_id | reflexivity].
Qed.

Lemma leaderboard_length players :
  List.length (leaderboard players) = List.length (JsMap.values players).
Proof.
  unfold leaderboard, mapi. rewrite mapi_from_length.
  apply stable_sort_length.
Qed.

(** C1 (as the code has it). Whatever the state, the list sent by
    [broadcastLeaderboard] is sorted by score descending, its ranks are
    1, 2, 3, ... by position, it holds exactly the profiles of the
    scoreboard, and the profiles of equal score keep the order in which they
    entered the scoreboard: no elapsed time takes part in the order. *)
Theorem leaderboard_sorted_by_score_and_ranked (st : State) :
  exists board,
    broadcastLeaderboard st = leaderboard_update board /\
    StronglySorted score_descending board /\
    map rank board = seq 1 (List.length board) /\
    Permutation (map player board) (JsMap.values (persistentPlayers st)) /\
    forall s, filter (scoring s) (map player board) =
              filter (scoring s) (JsMap.values (persistentPlayers st)).
Proof.
  exists (leaderboard (persistentPlayers st)).
  split; [reflexivity|]. split; [|split; [|split]].
  - apply (@StronglySorted_map _ _ (fun a b => (score b <= score a)%Z) player).
    rewrite leaderboard_players. unfold js_sort.
    eapply StronglySorted_weaken;
      [| apply stable_sort_sorted].
    + intros a b H. apply Z.leb_le in H. lia.
    + intros a b H. apply Z.leb_gt in H. apply Z.leb_le. lia.
    + intros a b c H1 H2. apply Z.leb_le in H1, H2. apply Z.leb_le. lia.
  - unfold leaderboard, mapi.
    rewrite (mapi_from_index rank); [|reflexivity].
    rewrite mapi_from_length. reflexivity.
  - rewrite leaderboard_players. apply stable_sort_perm.
  - intros s. rewrite leaderboard_players. unfold js_sort.
    apply stable_sort_filter.
    intros a b Ha Hb. unfold scoring in Ha, Hb.
    apply Z.eqb_eq in Ha, Hb. apply Z.leb_le. lia.
Qed.

(** Whatever is taken for the elapsed time of a profile, two players of
    equal score are listed in the order they joined, also when the second
    has the shorter time. *)
Lemma tie_keeps_join_order (time : PlayerProfile -> Z) (k1 k2 : string) (p q : PlayerProfile) :
  score p = score q -> (time q < time p)%Z ->
  leaderboard [(k1, p); (k2, q)] = [{| player := p; rank := 1 |}; {| player := q; rank := 2 |}] /\
  ~ StronglySorted (score_then_time time) (leaderboard [(k1, p); (k2, q)]).
Proof.
  intros Hs Ht.
  assert (E : leaderboard [(k1, p); (k2, q)] =
              [{| player := p; rank := 1 |}; {| player := q; rank := 2 |}]).
  { unfold leaderboard, js_sort, mapi. simpl.
    replace (score q - score p <=? 0)%Z with true; [reflexivity|].
    symmetry. apply Z.leb_le. lia. }
  split; [exact E|]. rewrite E. intros H.
  inversion H as [|? ? _ Hall]; subst.
  inversion Hall as [|? ? Hpq _]; subst.
  unfold score_then_time in Hpq. simpl in Hpq. lia.
Qed.

(** C1 (as the specification words it) fails: after [tied_game] alice and
    bob both have 10 points, alice with the longer time, and the broadcast
    lists alice first. *)
Lemma leaderboard_ties_not_broken_by_time :
  broadcastLeaderboard (fst (run tied_game (initial None))) =
    leaderboard_update
      [{| player := {| username := "alice"; avatarUrl := None; score := 10;
                       status := "Just Joined"; isBot := false;
                       extra := [("totalTime", 9000%Z)] |};
          rank := 1 |};
       {| player := {| username := "bob"; avatarUrl := None; score := 10;
                       status := "Just Joined"; isBot := false;
                       extra := [("totalTime", 1000%Z)] |};
          rank := 2 |}] /\
  ~ (forall board,
       broadcastLeaderboard (fst (run tied_game (initial None))) = leaderboard_update board ->
       StronglySorted (score_then_time elapsedTime) board).
Proof.
  assert (E : forall b, b = broadcastLeaderboard (fst (run tied_game (initial None))) ->
              b = leaderboard_update
                    [{| player := {| username := "alice"; avatarUrl := None; score := 10;
                                     status := "Just Joined"; isBot := false;
                                     extra := [("totalTime", 9000%Z)] |};
                        rank := 1 |};
                     {| player := {| username := "bob"; avatarUrl := None; score := 10;
                                     status := "Just Joined"; isBot := false;
                                     extra := [("totalTime", 1000%Z)] |};
                        rank := 2 |}]).
  { intros b ->. vm_compute. reflexivity. }
  split; [apply E; reflexivity|].
  intros H. specialize (H _ (E _ eq_refl)).
  inversion H as [|? ? _ Hall]; subst.
  inversion Hall as [|? ? Hpq _]; subst.
  unfold score_then_time, elapsedTime in Hpq. simpl in Hpq. lia.
Qed.

End Leaderboard.

(* ================================================================== *)
(** * The maps of the server under its handlers *)

Section ServerMaps.

Import Server Spec.

Lemma on_join_maps socket userData env st :
  persistentPlayers (fst (on_join socket userData env st)) =
    JsMap.set (join_username userData)
              (joining_player userData (persistentPlayers st)) (persistentPlayers st) /\
  socketPlayers (fst (on_join socket userData env st)) =
    JsMap.set socket (join_username userData) (socketPlayers st) /\
  playerSessions (fst (on_join socket userData env st)) = playerSessions st.
Proof.
  unfold on_join.
  destruct (JsMap.get (join_username userData) (playerSessions st)).
  - simpl. auto.
  - destruct (LegacySessionService.createSession _ _ _ _). simpl. auto.
Qed.

Lemma on_session_maps i st :
  persistentPlayers (fst (on_session i st)) = persistentPlayers st /\
  socketPlayers (fst (on_session i st)) = socketPlayers st /\
  (playerSessions (fst (on_session i st)) = playerSessions st \/
   exists p session,
     nth_error (pending st) i = Some p /\
     pending_session p = Returned session /\
     playerSessions (fst (on_session i st)) =
       JsMap.set (pending_playerKey p) (session_id session) (playerSessions st)).
Proof.
  unfold on_session.
  destruct (nth_error (pending st) i) as [p|] eqn:E; [|simpl; auto].
  destruct (pending_session p) as [session|] eqn:Es; simpl; [|auto].
  repeat split. right. exists p, session. auto.
Qed.

Lemma on_update_progress_maps socket data st :
  socketPlayers (fst (on_update_progress socket data st)) = socketPlayers st /\
  playerSessions (fst (on_update_progress socket data st)) = playerSessions st /\
  supabase (fst (on_update_progress socket data st)) = supabase st /\
  pending (fst (on_update_progress socket data st)) = pending st /\
  (persistentPlayers (fst (on_update_progress socket data st)) = persistentPlayers st \/
   exists playerKey player,
     persistentPlayers (fst (on_update_progress socket data st)) =
       JsMap.set playerKey (merge player data) (persistentPlayers st)).
Proof.
  unfold on_update_progress.
  destruct (JsMap.get socket (socketPlayers st)) as [k|]; [|simpl; auto 6].
  destruct (truthy_string k); [|simpl; auto 6].
  destruct (JsMap.get k (persistentPlayers st)) as [p|]; simpl; [|auto 6].
  repeat split. right. eauto.
Qed.

Lemma on_round_complete_maps socket data env st :
  persistentPlayers (fst (on_round_complete socket data env st)) = persistentPlayers st /\
  socketPlayers (fst (on_round_complete socket data env st)) = socketPlayers st /\
  playerSessions (fst (on_round_complete socket data env st)) = playerSessions st /\
  pending (fst (on_round_complete socket data env st)) = pending st.
Proof.
  unfold on_round_complete.
  destruct (session_of socket st); [|simpl; auto].
  destruct (LegacySessionService.updateRoundData _ _ _ _ _). simpl. auto.
Qed.

Lemma on_game_complete_maps socket data env st :
  persistentPlayers (fst (on_game_complete socket data env st)) = persistentPlayers st /\
  socketPlayers (fst (on_game_complete socket data env st)) = socketPlayers st /\
  playerSessions (fst (on_game_complete socket data env st)) = playerSessions st /\
  pending (fst (on_game_complete socket data env st)) = pending st.
Proof.
  unfold on_game_complete.
  destruct (session_of socket st); [|simpl; auto].
  destruct (LegacySessionService.completeSession _ _ _ _). simpl. auto.
Qed.

Lemma on_disconnect_maps socket st :
  persistentPlayers (fst (on_disconnect socket st)) = persistentPlayers st /\
  playerSessions (fst (on_disconnect socket st)) = playerSessions st /\
  supabase (fst (on_disconnect socket st)) = supabase st /\
  pending (fst (on_disconnect socket st)) = pending st /\
  (socketPlayers (fst (on_disconnect socket st)) = socketPlayers st \/
   socketPlayers (fst (on_disconnect socket st)) = JsMap.delete socket (socketPlayers st)).
Proof.
  unfold on_disconnect.
  destruct (JsMap.get socket (socketPlayers st)) as [k|]; [|simpl; auto 6].
  destruct (truthy_string k); simpl; auto 6.
Qed.

Lemma initial_well_formed client : well_formed (initial client).
Proof.
  split; simpl; try constructor. intros ? ? H. discriminate.
Qed.

Lemma handle_well_formed e st : well_formed st -> well_formed (fst (handle e st)).
Proof.
  intros [Hp Hs Hn Hb]. destruct e; simpl.
  - split; assumption.
  - destruct (on_join_maps socket userData env st) as (Ep & Es & En).
    split; rewrite ?Ep, ?Es, ?En; auto using NoDup_keys_set.
    intros s k. rewrite !get_set.
    destruct (String.eqb s socket).
    + intros [= <-]. rewrite String.eqb_refl. discriminate.
    + intros H. destruct (String.eqb k (join_username userData)); [discriminate | eauto].
  - destruct (on_session_maps i st) as (Ep & Es & [En | (p & session & _ & _ & En)]);
      split; rewrite ?Ep, ?Es, ?En; auto using NoDup_keys_set.
  - destruct (on_update_progress_maps socket data st)
      as (Es & En & _ & _ & [Ep | (k & p & Ep)]);
      split; rewrite ?Ep, ?Es, ?En; auto using NoDup_keys_set.
    intros s k'. rewrite get_set. intros H.
    destruct (String.eqb k' k); [discriminate | eauto].
  - destruct (on_round_complete_maps socket data env st) as (Ep & Es & En & _).
    split; rewrite ?Ep, ?Es, ?En; auto.
  - destruct (on_game_complete_maps socket data env st) as (Ep & Es & En & _).
    split; rewrite ?Ep, ?Es, ?En; auto.
  - destruct (on_disconnect_maps socket st) as (Ep & En & _ & _ & [Es | Es]);
      split; rewrite ?Ep, ?Es, ?En; auto using NoDup_keys_delete.
    intros s k. rewrite get_delete.
    destruct (String.eqb s socket); [discriminate | eauto].
Qed.

Lemma run_cons e events st :
  run (e :: events) st =
  (fst (run events (fst (handle e st))),
   snd (handle e st) ++ snd (run events (fst (handle e st)))).
Proof.
  simpl. destruct (handle e st) as [st1 out1]. simpl.
  destruct (run events st1) as [st2 out2]. reflexivity.
Qed.

Lemma run_well_formed events st : well_formed st -> well_formed (fst (run events st)).
Proof.
  revert st. induction events as [|e r IH]; intros st H; [exact H|].
  rewrite run_cons. simpl. apply IH, handle_well_formed, H.
Qed.

Lemma reachable_well_formed st : reachable st -> well_formed st.
Proof.
  intros (client & events & <-). apply run_well_formed, initial_well_formed.
Qed.

End ServerMaps.

(* ================================================================== *)
(** * Joining *)

Section Joining.

Import Server Spec.

Lemma get_In {V} (m : JsMap.t V) k v : JsMap.get k m = Some v -> In (k, v) m.
Proof.
  induction m as [|[k0 v0] r IH]; simpl; [discriminate|].
  destruct (String.eqb k k0) eqn:E.
  - apply String.eqb_eq in E. intros [= ->]. subst. left. reflexivity.
  - intros H. right. apply IH, H.
Qed.

Lemma Forall_set {V} (P : string * V -> Prop) (m : JsMap.t V) k v :
  Forall P m -> P (k, v) -> Forall P (JsMap.set k v m).
Proof.
  intros Hm Hk. induction Hm as [|[k0 v0] r H0 Hr IH]; simpl.
  - constructor; [assumption | constructor].
  - destruct (String.eqb k k0); constructor; assumption.
Qed.

Lemma Forall_remove_nth {A} (P : A -> Prop) i (l : list A) :
  Forall P l -> Forall P (remove_nth i l).
Proof.
  intros H. revert i. induction H as [|x r Hx Hr IH]; intros i; destruct i; simpl.
  - constructor.
  - constructor.
  - assumption.
  - constructor; auto.
Qed.

Lemma joining_player_username userData players :
  Forall (fun kv => username (snd kv) = fst kv) players ->
  username (joining_player userData players) = join_username userData.
Proof.
  intros H. unfold joining_player.
  assert (E : username match JsMap.get (join_username userData) players with
                       | Some p => p
                       | None => new_player userData
                       end = join_username userData).
  { destruct (JsMap.get (join_username userData) players) as [p|] eqn:G; [|reflexivity].
    apply get_In in G. rewrite Forall_forall in H. apply (H _ G). }
  destruct (truthy (join_avatarUrl userData)); simpl; exact E.
Qed.

Lemma handle_named e st : not_progress e -> named st -> named (fst (handle e st)).
Proof.
  unfold named. intros He H. destruct e; simpl in *; try contradiction.
  - exact H.
  - destruct (on_join_maps socket userData env st) as (-> & _ & _).
    apply Forall_set; [assumption|]. simpl.
    apply joining_player_username, H.
  - destruct (on_session_maps i st) as (-> & _ & _). exact H.
  - destruct (on_round_complete_maps socket data env st) as (-> & _). exact H.
  - destruct (on_game_complete_maps socket data env st) as (-> & _). exact H.
  - destruct (on_disconnect_maps socket st) as (-> & _). exact H.
Qed.

Lemma run_named events st :
  Forall not_progress events -> named st -> named (fst (run events st)).
Proof.
  intros He. revert st. induction He as [|e r H Hr IH]; intros st Hn; [exact Hn|].
  rewrite run_cons. simpl. apply IH, handle_named; assumption.
Qed.

Lemma named_usernames st :
  named st -> map username (JsMap.values (persistentPlayers st)) = JsMap.keys (persistentPlayers st).
Proof.
  unfold named, JsMap.values, JsMap.keys. intros H.
  rewrite map_map. apply map_ext_in. intros kv Hin.
  rewrite Forall_forall in H. apply H, Hin.
Qed.

(** C2, first part. Whatever the events, the scoreboard holds a name at
    most once; and after joins alone (with connections, disconnections and
    round events, but no progress report) no two profiles carry the same
    [username]. *)
Lemma one_profile_per_name client events :
  NoDup (JsMap.keys (persistentPlayers (fst (run events (initial client))))) /\
  (Forall not_progress events ->
   NoDup (map username (JsMap.values (persistentPlayers (fst (run events (initial client))))))).
Proof.
  assert (W : well_formed (fst (run events (initial client)))).
  { apply run_well_formed, initial_well_formed. }
  split; [apply W|].
  intros He. rewrite named_usernames; [apply W|].
  apply run_named; [assumption | constructor].
Qed.

(** C2, second part. A join under a known name keeps the one profile of
    that name, with its score and status; the avatar is overwritten exactly
    when the event carries a non-empty one. *)
Lemma join_merges_into_known_profile socket userData env st p :
  JsMap.get (join_username userData) (persistentPlayers st) = Some p ->
  JsMap.keys (persistentPlayers (fst (on_join socket userData env st))) =
    JsMap.keys (persistentPlayers st) /\
  exists p',
    JsMap.get (join_username userData)
              (persistentPlayers (fst (on_join socket userData env st))) = Some p' /\
    username p' = username p /\ score p' = score p /\ status p' = status p /\
    isBot p' = isBot p /\ extra p' = extra p /\
    avatarUrl p' = if truthy (join_avatarUrl userData)
                   then join_avatarUrl userData else avatarUrl p.
Proof.
  intros G. destruct (on_join_maps socket userData env st) as (-> & _ & _).
  split.
  - apply keys_set_known. congruence.
  - exists (joining_player userData (persistentPlayers st)).
    split; [apply get_set_same|].
    unfold joining_player. rewrite G.
    destruct (truthy (join_avatarUrl userData)); simpl; auto 7.
Qed.

Lemma on_join_pending socket userData env st :
  pending (fst (on_join socket userData env st)) = pending st \/
  (JsMap.get (join_username userData) (playerSessions st) = None /\
   exists session,
     pending (fst (on_join socket userData env st)) =
       pending st ++ [{| pending_socket := socket;
                         pending_playerKey := join_username userData;
                         pending_session := session |}]).
Proof.
  unfold on_join.
  destruct (JsMap.get (join_username userData) (playerSessions st)); [simpl; auto|].
  destruct (LegacySessionService.createSession _ _ _ _) as [session client]. simpl.
  right. split; [reflexivity|]. exists session. reflexivity.
Qed.

Lemma on_session_pending i st :
  pending (fst (on_session i st)) = pending st \/
  pending (fst (on_session i st)) = remove_nth i (pending st).
Proof.
  unfold on_session.
  destruct (nth_error (pending st) i) as [p|]; [|simpl; auto].
  destruct (pending_session p); simpl; auto.
Qed.

Lemma handle_settled name sessionId e st :
  settled name sessionId st -> settled name sessionId (fst (handle e st)).
Proof.
  intros [Hs Hp]. unfold settled. destruct e; simpl.
  - auto.
  - destruct (on_join_maps socket userData env st) as (_ & _ & ->).
    split; [assumption|].
    destruct (on_join_pending socket userData env st) as [-> | (Hn & session & ->)];
      [assumption|].
    apply Forall_app. split; [assumption|].
    constructor; [|constructor]. simpl. congruence.
  - split.
    + destruct (on_session_maps i st) as (_ & _ & [-> | (p & session & Hi & _ & ->)]);
        [assumption|].
      rewrite get_set_other; [assumption|].
      rewrite Forall_forall in Hp. intros E. apply (Hp p); [|auto].
      eapply nth_error_In, Hi.
    + destruct (on_session_pending i st) as [-> | ->];
        [assumption | apply Forall_remove_nth, Hp].
  - destruct (on_update_progress_maps socket data st) as (_ & -> & _ & -> & _). auto.
  - destruct (on_round_complete_maps socket data env st) as (_ & _ & -> & ->). auto.
  - destruct (on_game_complete_maps socket data env st) as (_ & _ & -> & ->). auto.
  - destruct (on_disconnect_maps socket st) as (_ & -> & _ & -> & _). auto.
Qed.

Lemma run_settled name sessionId events st :
  settled name sessionId st -> settled name sessionId (fst (run events st)).
Proof.
  revert st. induction events as [|e r IH]; intros st H; [exact H|].
  rewrite run_cons. simpl. apply IH, handle_settled, H.
Qed.

(** C2, third part. Once the session of a name is settled, it stays the
    same whatever happens next, and every later join under that name is
    answered with it, without a call to the store. *)
Lemma settled_session_is_reused name sessionId st events socket userData env :
  settled name sessionId st ->
  join_username userData = name ->
  let st1 := fst (run events st) in
  JsMap.get name (playerSessions st1) = Some sessionId /\
  sessions_sent (snd (on_join socket userData env st1)) = [(socket, sessionId)] /\
  playerSessions (fst (on_join socket userData env st1)) = playerSessions st1 /\
  supabase (fst (on_join socket userData env st1)) = supabase st1 /\
  pending (fst (on_join socket userData env st1)) = pending st1.
Proof.
  intros H Hname st1.
  destruct (run_settled events H) as [Hs _]. fold st1 in Hs.
  split; [exact Hs|].
  unfold on_join. rewrite Hname, Hs. simpl. auto.
Qed.

Lemma legacy_createSession_returns supabase env playerName apiKey :
  exists session client,
    LegacySessionService.createSession supabase env playerName apiKey
      = (Returned session, client).
Proof.
  unfold LegacySessionService.createSession.
  destruct supabase as [c|]; [|eauto].
  destruct (Supabase.insert_single env _ c) as [reply c'].
  unfold checked_data, checked.
  destruct (Supabase.error reply); [|destruct (Supabase.data reply)]; simpl; eauto.
Qed.

Lemma remove_nth_last {A} (l : list A) x : remove_nth (List.length l) (l ++ [x]) = l.
Proof.
  induction l as [|y r IH]; simpl; [reflexivity|]. rewrite IH. reflexivity.
Qed.

Lemma nth_error_last {A} (l : list A) x : nth_error (l ++ [x]) (List.length l) = Some x.
Proof.
  induction l as [|y r IH]; simpl; [reflexivity | exact IH].
Qed.

(** C2, how a session gets settled. A join under a name that has no
    session yet, with no other join under that name waiting, followed by
    the end of its [createSession] call, settles the session of the name:
    the identifier sent to the socket is the one remembered from then on. *)
Lemma first_join_settles socket userData env st :
  JsMap.get (join_username userData) (playerSessions st) = None ->
  Forall (fun p => pending_playerKey p <> join_username userData) (pending st) ->
  exists sessionId,
    settled (join_username userData) sessionId
      (fst (run [join socket userData env; session_resolved (List.length (pending st))] st)) /\
    sessions_sent
      (snd (run [join socket userData env; session_resolved (List.length (pending st))] st))
    = [(socket, sessionId)].
Proof.
  intros G F.
  destruct (legacy_createSession_returns (supabase st) env
              (join_username userData) (join_apiKey userData))
    as (session & client & E).
  exists (session_id session).
  rewrite !run_cons. simpl. unfold on_join. rewrite G, E. simpl.
  unfold on_session. simpl. rewrite nth_error_last. simpl.
  rewrite remove_nth_last.
  split; [|reflexivity].
  split; simpl; [apply get_set_same | exact F].
Qed.

End Joining.

Section JoinRace.

Import Server Spec.

(** C2 (the session part fails). After [overlapping_joins] on a configured,
    reachable store, both joins found no session for alice and both created
    one: two rows are stored for alice, the two sockets were sent different
    identifiers, and the one created at the first join is no longer
    remembered. The scoreboard still holds alice once. *)
Theorem overlapping_joins_create_two_sessions :
  let result := run overlapping_joins (initial (Some empty_client)) in
  sessions_sent (snd result) =
    [("s1", "4b1d6e0a-0000-4000-8000-000000000001");
     ("s2", "4b1d6e0a-0000-4000-8000-000000000002")] /\
  playerSessions (fst result) = [("alice", "4b1d6e0a-0000-4000-8000-000000000002")] /\
  JsMap.keys (persistentPlayers (fst result)) = ["alice"] /\
  option_map (fun c => map (str_col "player_name") (Supabase.table c)) (supabase (fst result)) =
    Some [Some "alice"; Some "alice"].
Proof. vm_compute. auto. Qed.

End JoinRace.

(* ================================================================== *)
(** * Disconnecting and reporting progress *)

Section Bindings.

Import Server Spec.

(** C6 (for a non-empty name). Disconnecting a socket bound to a non-empty
    name removes that binding and nothing else: the other bindings, the
    scoreboard, the session identifiers, the store and the waiting joins are
    as before, and nothing is emitted. *)
Lemma disconnect_removes_only_the_binding socket name st :
  JsMap.get socket (socketPlayers st) = Some name ->
  truthy_string name = true ->
  on_disconnect socket st =
    ({| socketPlayers := JsMap.delete socket (socketPlayers st);
        persistentPlayers := persistentPlayers st;
        playerSessions := playerSessions st;
        supabase := supabase st;
        pending := pending st |}, []) /\
  JsMap.get socket (socketPlayers (fst (on_disconnect socket st))) = None /\
  forall other, other <> socket ->
    JsMap.get other (socketPlayers (fst (on_disconnect socket st))) =
    JsMap.get other (socketPlayers st).
Proof.
  intros G T. unfold on_disconnect. rewrite G, T. simpl.
  split; [reflexivity|]. split.
  - rewrite get_delete, String.eqb_refl. reflexivity.
  - intros other Ho. rewrite get_delete.
    apply String.eqb_neq in Ho. rewrite Ho. reflexivity.
Qed.

(** C6, the later join. After a disconnection, a join under the same name
    finds the profile with the score and status it had. *)
Lemma rejoin_resumes_with_prior_score socket socket' userData env st p :
  JsMap.get (join_username userData) (persistentPlayers st) = Some p ->
  exists p',
    JsMap.get (join_username userData)
      (persistentPlayers (fst (on_join socket' userData env (fst (on_disconnect socket st)))))
      = Some p' /\
    score p' = score p /\ status p' = status p.
Proof.
  intros G.
  destruct (on_disconnect_maps socket st) as (Ep & _).
  rewrite <- Ep in G.
  destruct (join_merges_into_known_profile socket' userData env _ G)
    as (_ & p' & Gp & _ & Hs & Ht & _).
  exists p'. auto.
Qed.

(** C6 (fails for the empty name). After [nameless_game] the socket s1 is
    bound to the empty name; its disconnection changes nothing, so the
    binding is still there. *)
Theorem disconnect_keeps_binding_of_empty_name :
  let st := fst (run nameless_game (initial None)) in
  JsMap.get "s1" (socketPlayers st) = Some "" /\
  on_disconnect "s1" st = (st, []) /\
  JsMap.get "s1" (socketPlayers (fst (run (nameless_game ++ [disconnect "s1"]) (initial None))))
    = Some "".
Proof. vm_compute. auto. Qed.

(** C8, first half. A progress report from a socket that is not bound
    changes nothing and emits nothing. *)
Lemma progress_from_unbound_socket_is_ignored socket data st :
  JsMap.get socket (socketPlayers st) = None ->
  on_update_progress socket data st = (st, []).
Proof. intros G. unfold on_update_progress. rewrite G. reflexivity. Qed.

(** C8, second half (for a non-empty name). In a reachable state, a
    progress report from a socket bound to a non-empty name merges its
    fields into the profile of that name, leaves the other profiles and the
    other maps alone, and broadcasts the new leaderboard. *)
Lemma progress_merges_into_bound_profile socket name data st :
  reachable st ->
  JsMap.get socket (socketPlayers st) = Some name ->
  truthy_string name = true ->
  exists p,
    JsMap.get name (persistentPlayers st) = Some p /\
    on_update_progress socket data st =
      (let st' := {| socketPlayers := socketPlayers st;
                     persistentPlayers :=
                       JsMap.set name (merge p data) (persistentPlayers st);
                     playerSessions := playerSessions st;
                     supabase := supabase st;
                     pending := pending st |} in
       (st', [broadcastLeaderboard st'])) /\
    JsMap.get name (persistentPlayers (fst (on_update_progress socket data st)))
      = Some (merge p data) /\
    forall other, other <> name ->
      JsMap.get other (persistentPlayers (fst (on_update_progress socket data st))) =
      JsMap.get other (persistentPlayers st).
Proof.
  intros R G T.
  pose proof (bound_is_known (reachable_well_formed R) _ G) as K.
  destruct (JsMap.get name (persistentPlayers st)) as [p|] eqn:Gp; [|congruence].
  exists p. split; [reflexivity|].
  unfold on_update_progress. rewrite G, T, Gp. simpl.
  split; [reflexivity|]. split.
  - apply get_set_same.
  - intros other Ho. apply get_set_other, Ho.
Qed.

(** C8 (fails for the empty name). After [nameless_game] the socket s1 is
    bound and its player is on the scoreboard, yet a progress report from
    s1 is dropped: the score stays 0 and nothing is broadcast. *)
Theorem progress_of_empty_name_is_dropped :
  let st := fst (run nameless_game (initial None)) in
  JsMap.get "s1" (socketPlayers st) = Some "" /\
  option_map score (JsMap.get "" (persistentPlayers st)) = Some 0%Z /\
  on_update_progress "s1" (report 40 1000) st = (st, []).
Proof. vm_compute. auto. Qed.

(** C9 (fails for the live profile). After [alice_game], in which alice
    joins without an avatar, her profile has no avatar at all, hence none
    that contains her name. *)
Lemma live_profile_gets_no_placeholder_avatar :
  JsMap.get "alice" (persistentPlayers (fst (run alice_game (initial (Some empty_client))))) =
    Some {| username := "alice"; avatarUrl := None; score := 0;
            status := "Just Joined"; isBot := false; extra := [] |} /\
  ~ (forall p,
       JsMap.get "alice" (persistentPlayers (fst (run alice_game (initial (Some empty_client)))))
         = Some p ->
       exists url, avatarUrl p = Some url /\ contains url "alice").
Proof.
  assert (E : JsMap.get "alice"
                (persistentPlayers (fst (run alice_game (initial (Some empty_client))))) =
              Some {| username := "alice"; avatarUrl := None; score := 0;
                      status := "Just Joined"; isBot := false; extra := [] |}).
  { vm_compute. reflexivity. }
  split; [exact E|].
  intros H. destruct (H _ E) as (url & Hu & _). discriminate.
Qed.

(** A join under an unknown name stores the avatar of the event as it is:
    none when the event carries none. *)
Lemma join_stores_given_avatar socket userData env st :
  JsMap.get (join_username userData) (persistentPlayers st) = None ->
  JsMap.get (join_username userData) (persistentPlayers (fst (on_join socket userData env st))) =
    Some {| username := join_username userData;
            avatarUrl := join_avatarUrl userData;
            score := 0;
            status := "Just Joined";
            isBot := false;
            extra := [] |}.
Proof.
  intros G. destruct (on_join_maps socket userData env st) as (-> & _).
  rewrite get_set_same. unfold joining_player. rewrite G.
  destruct (truthy (join_avatarUrl userData)); reflexivity.
Qed.

End Bindings.

(* ================================================================== *)
(** * Saving rounds *)

Section RoundSaves.

Import Supabase GameSessionService.

(** What a round save returns and does to the store, case by case. *)
Lemma save_round_cases supabase env sessionId patch :
  save_round supabase env sessionId patch =
  match supabase with
  | None => (Returned false, None)
  | Some c =>
      if startsWith sessionId "local-" then (Returned false, Some c)
      else match network env with
           | Offline _ => (Returned false, Some (contact c (table c)))
           | Online =>
               (Returned true,
                Some (contact c (updated patch "id" (JStr sessionId) (table c))))
           end
  end.
Proof.
  unfold save_round, update_eq.
  destruct supabase as [c|]; [|reflexivity].
  destruct (startsWith sessionId "local-"); [reflexivity|].
  destruct (network env); reflexivity.
Qed.

Lemma save_round_true supabase env sessionId patch client :
  save_round supabase env sessionId patch = (Returned true, client) ->
  exists c, supabase = Some c /\
            client = Some (contact c (updated patch "id" (JStr sessionId) (table c))).
Proof.
  rewrite save_round_cases.
  destruct supabase as [c|]; [|discriminate].
  destruct (startsWith sessionId "local-"); [discriminate|].
  destruct (network env); [|discriminate].
  intros [= <-]. eauto.
Qed.

Lemma matches_spread patch col v (r : Row) :
  JsMap.get col (rev patch) = None ->
  matches col v (JsMap.spread r patch) = matches col v r.
Proof.
  intros H. unfold matches. rewrite get_spread, H. reflexivity.
Qed.

(** An update that does not write the identifier keeps the rows of a
    session and patches each of them. *)
Lemma session_rows_updated patch sessionId c :
  JsMap.get "id" (rev patch) = None ->
  session_rows sessionId
    (Some (contact c (updated patch "id" (JStr sessionId) (table c)))) =
  map (fun r => JsMap.spread r patch) (session_rows sessionId (Some c)).
Proof.
  intros H. unfold session_rows, contact, updated. simpl.
  induction (table c) as [|r rows IH]; simpl; [reflexivity|].
  destruct (matches "id" (JStr sessionId) r) eqn:E.
  - rewrite matches_spread, E by exact H. simpl. rewrite IH. reflexivity.
  - rewrite E. exact IH.
Qed.

(** The rows of a session after a successful round save. *)
Lemma saved_rows supabase env sessionId patch client :
  JsMap.get "id" (rev patch) = None ->
  save_round supabase env sessionId patch = (Returned true, client) ->
  session_rows sessionId client =
  map (fun r => JsMap.spread r patch) (session_rows sessionId supabase).
Proof.
  intros Hid H. apply save_round_true in H as (c & -> & ->).
  apply session_rows_updated, Hid.
Qed.

Ltac patched :=
  unfold str_col, num_col; rewrite get_spread; reflexivity.

(** C4. A successful save of round 1 leaves the session with status
    "Round 2", one round completed and the round score as total score; a
    following successful save of round 2 leaves it with the previous total
    plus the round score as total score and with status "Round 3". The
    session is the stored one: both saves keep its rows. *)
Theorem round1_then_round2_totals
  supabase env sessionId subRoundsData totalScore totalTime after1
  env2 roundData roundScore roundTime previousTotalScore after2 :
  saveRound1Data supabase env sessionId subRoundsData totalScore totalTime
    = (Returned true, after1) ->
  saveRound2Data after1 env2 sessionId roundData roundScore roundTime previousTotalScore
    = (Returned true, after2) ->
  (forall r, In r (session_rows sessionId after1) ->
     str_col "status" r = Some "Round 2" /\
     num_col "rounds_completed" r = Some 1%Z /\
     num_col "total_score" r = Some totalScore) /\
  (forall r, In r (session_rows sessionId after2) ->
     num_col "total_score" r = Some (previousTotalScore + roundScore)%Z /\
     str_col "status" r = Some "Round 3") /\
  List.length (session_rows sessionId after1) = List.length (session_rows sessionId supabase) /\
  List.length (session_rows sessionId after2) = List.length (session_rows sessionId supabase).
Proof.
  intros H1 H2.
  apply saved_rows in H1; [|reflexivity].
  apply saved_rows in H2; [|reflexivity].
  repeat split.
  - rewrite H1 in H. apply in_map_iff in H as (r0 & <- & _). patched.
  - rewrite H1 in H. apply in_map_iff in H as (r0 & <- & _). patched.
  - rewrite H1 in H. apply in_map_iff in H as (r0 & <- & _). patched.
  - rewrite H2 in H. apply in_map_iff in H as (r0 & <- & _). patched.
  - rewrite H2 in H. apply in_map_iff in H as (r0 & <- & _). patched.
  - rewrite H1. apply length_map.
  - rewrite H2, length_map, H1. apply length_map.
Qed.


End RoundSaves.

(* ================================================================== *)
(** * The persisted leaderboard *)

Section PersistedLeaderboard.

Import Supabase Spec.

Lemma lex_leb_total a b : lex_leb a b = false -> lex_leb b a = true.
Proof.
  revert b. induction a as [|x r IH]; intros [|y s]; simpl; try congruence.
  destruct (Z.ltb_spec x y); [discriminate|].
  destruct (Z.ltb_spec y x); [reflexivity|].
  apply IH.
Qed.

Lemma lex_leb_trans a b c :
  lex_leb a b = true -> lex_leb b c = true -> lex_leb a c = true.
Proof.
  revert b c. induction a as [|x r IH]; intros [|y s] [|z t]; simpl; try congruence.
  destruct (Z.ltb_spec x y), (Z.ltb_spec y x), (Z.ltb_spec y z), (Z.ltb_spec z y),
           (Z.ltb_spec x z), (Z.ltb_spec z x);
    try congruence; try lia.
  apply IH.
Qed.

Lemma firstn_In {A} n (l : list A) x : In x (firstn n l) -> In x l.
Proof.
  revert l. induction n as [|n IH]; intros [|y r]; simpl; try tauto.
  intros [H|H]; [left; exact H | right; apply IH, H].
Qed.

Lemma StronglySorted_firstn {A} (R : A -> A -> Prop) n l :
  StronglySorted R l -> StronglySorted R (firstn n l).
Proof.
  intros H. revert n. induction H as [|x r Hs IH Hall]; intros [|n]; simpl;
    try constructor; auto.
  apply Forall_forall. intros y Hy.
  rewrite Forall_forall in Hall. apply Hall. eapply firstn_In, Hy.
Qed.

Lemma StronglySorted_map_intro {A B} (R : B -> B -> Prop) (f : A -> B) l :
  StronglySorted (fun a b => R (f a) (f b)) l -> StronglySorted R (map f l).
Proof.
  induction 1 as [|x r Hs IH Hall]; simpl; constructor; [assumption|].
  apply Forall_forall. intros y Hy. apply in_map_iff in Hy as (y0 & <- & Hy0).
  rewrite Forall_forall in Hall. apply Hall, Hy0.
Qed.

Lemma limited_sorted {R : Row -> Row -> Prop} q l :
  StronglySorted R l -> StronglySorted R (limited q l).
Proof.
  unfold limited. destruct (limit_count q); [apply StronglySorted_firstn | auto].
Qed.

Lemma limited_In q l r : In r (limited q l) -> In r l.
Proof.
  unfold limited. destruct (limit_count q); [apply firstn_In | auto].
Qed.

Lemma ordered_rows_sorted q rows :
  StronglySorted
    (fun a b => lex_leb (sort_key (orders q) a) (sort_key (orders q) b) = true)
    (ordered_rows q rows).
Proof.
  apply limited_sorted, stable_sort_sorted.
  - intros a b. apply lex_leb_total.
  - intros a b c. apply lex_leb_trans.
Qed.

Lemma ordered_rows_In q rows r :
  In r (ordered_rows q rows) ->
  In r rows /\ forallb (fun f => matches (fst f) (snd f) r) (filters q) = true.
Proof.
  intros H. apply limited_In in H.
  apply (Permutation_in _ (stable_sort_perm _ _)) in H.
  apply filter_In in H. exact H.
Qed.

Lemma ordered_rows_length q rows n :
  limit_count q = Some n -> List.length (ordered_rows q rows) <= n.
Proof.
  intros H. unfold ordered_rows, limited. rewrite H. apply firstn_le_length.
Qed.

(** Total score descending, then total time ascending with NULL last, as
    sort keys: the order of the leaderboard. *)
Lemma keys_rank nf a b :
  nf = None \/ nf = Some false ->
  lex_leb
    (sort_key [{| column := "total_score"; ascending := false; nullsFirst := None |};
               {| column := "total_time"; ascending := true; nullsFirst := nf |}] a)
    (sort_key [{| column := "total_score"; ascending := false; nullsFirst := None |};
               {| column := "total_time"; ascending := true; nullsFirst := nf |}] b) = true ->
  ranked_before a b.
Proof.
  intros Hnf H sa sb Ha Hb. revert H.
  unfold time_not_after, sort_key, order_key, nulls_first. simpl.
  rewrite Ha, Hb.
  destruct Hnf as [-> | ->]; simpl;
    destruct (num_col "total_time" a) as [ta|], (num_col "total_time" b) as [tb|]; simpl;
    repeat match goal with
           | |- context [Z.ltb ?x ?y] => destruct (Z.ltb_spec x y)
           end; intros K; try discriminate; split; try lia; try tauto.
Qed.

Lemma matches_true col v r :
  matches col (JBool v) r = true -> JsMap.get col r = Some (JBool v).
Proof.
  unfold matches. destruct (JsMap.get col r) as [[| b | | | |]|]; simpl; try discriminate.
  intros H. apply Bool.eqb_prop in H. subst. reflexivity.
Qed.

Lemma projected_numbers r :
  let cols := Some ["player_name"; "total_score"; "total_time"; "created_at"] in
  num_col "total_score" (project cols r) = num_col "total_score" r /\
  num_col "total_time" (project cols r) = num_col "total_time" r.
Proof.
  unfold num_col, project. simpl.
  destruct (JsMap.get "player_name" r), (JsMap.get "total_score" r),
           (JsMap.get "total_time" r), (JsMap.get "created_at" r); simpl; auto.
Qed.

Lemma ranked_before_projected r1 r2 :
  ranked_before r1 r2 ->
  ranked_before
    (project (Some ["player_name"; "total_score"; "total_time"; "created_at"]) r1)
    (project (Some ["player_name"; "total_score"; "total_time"; "created_at"]) r2).
Proof.
  intros H sa sb.
  unfold time_not_after.
  destruct (projected_numbers r1) as [-> ->].
  destruct (projected_numbers r2) as [-> ->].
  apply H.
Qed.

Lemma selected_unfiltered q rows : filters q = [] -> selected q rows = rows.
Proof.
  intros H. unfold selected. rewrite H. simpl.
  induction rows as [|r rows IH]; simpl; [reflexivity | rewrite IH; reflexivity].
Qed.

(** Total score descending with NULL first, then total time ascending with
    NULL last, as sort keys: the order of the leaderboard on every pair. *)
Lemma keys_order nf a b :
  nf = None \/ nf = Some false ->
  lex_leb
    (sort_key [{| column := "total_score"; ascending := false; nullsFirst := None |};
               {| column := "total_time"; ascending := true; nullsFirst := nf |}] a)
    (sort_key [{| column := "total_score"; ascending := false; nullsFirst := None |};
               {| column := "total_time"; ascending := true; nullsFirst := nf |}] b) = true ->
  leaderboard_before a b.
Proof.
  intros Hnf.
  unfold leaderboard_before, time_not_after, sort_key, order_key, nulls_first. simpl.
  destruct Hnf as [-> | ->]; simpl;
    destruct (num_col "total_score" a) as [sa|], (num_col "total_score" b) as [sb|];
    destruct (num_col "total_time" a) as [ta|], (num_col "total_time" b) as [tb|]; simpl;
    repeat match goal with
           | |- context [Z.ltb ?x ?y] => destruct (Z.ltb_spec x y)
           end; intros K; try discriminate; try tauto; try lia.
Qed.

Lemma leaderboard_before_projected r1 r2 :
  leaderboard_before r1 r2 ->
  leaderboard_before
    (project (Some ["player_name"; "total_score"; "total_time"; "created_at"]) r1)
    (project (Some ["player_name"; "total_score"; "total_time"; "created_at"]) r2).
Proof.
  unfold leaderboard_before, time_not_after.
  destruct (projected_numbers r1) as [-> ->].
  destruct (projected_numbers r2) as [-> ->].
  auto.
Qed.

(** C5 (as the code has it). Both leaderboard queries return at most
    [limit] rows (50 and 10 when no limit is given), ordered by total score
    descending with ties broken by total time ascending, a session without
    a time last and a session without a score first. On a reachable store
    the round-based service returns the first [limit] rows of the whole
    table put in that order: no status is filtered out. The earlier service
    returns the projection of the first [limit] rows of the sessions whose
    [completed] flag is set, put in that order. With no store, or with the
    store out of reach, both return the empty list. *)
Theorem persisted_leaderboard_ordered_and_limited supabase env limit :
  (exists rows client,
     GameSessionService.getLeaderboard supabase env limit = (Returned rows, client) /\
     List.length rows <= match limit with Some n => n | None => 50 end /\
     StronglySorted ranked_before rows /\
     StronglySorted leaderboard_before rows /\
     (forall r, In r rows -> exists c, supabase = Some c /\ In r (table c)) /\
     (forall c, supabase = Some c -> network env = Online ->
        exists sorted,
          Permutation sorted (table c) /\
          StronglySorted leaderboard_before sorted /\
          rows = firstn (match limit with Some n => n | None => 50 end) sorted) /\
     (supabase = None \/ (exists m, network env = Offline m) -> rows = [])) /\
  (exists rows client,
     LegacySessionService.getLeaderboard supabase env limit = (Returned rows, client) /\
     List.length rows <= match limit with Some n => n | None => 10 end /\
     StronglySorted ranked_before rows /\
     StronglySorted leaderboard_before rows /\
     (forall r, In r rows ->
        exists c r0, supabase = Some c /\ In r0 (table c) /\
                     JsMap.get "completed" r0 = Some (JBool true) /\
                     r = project (Some ["player_name"; "total_score"; "total_time"; "created_at"]) r0) /\
     (forall c, supabase = Some c -> network env = Online ->
        exists sorted,
          Permutation sorted (completed_rows c) /\
          StronglySorted leaderboard_before sorted /\
          rows = map (project (Some ["player_name"; "total_score"; "total_time"; "created_at"]))
                     (firstn (match limit with Some n => n | None => 10 end) sorted)) /\
     (supabase = None \/ (exists m, network env = Offline m) -> rows = [])).
Proof.
  split.
  - unfold GameSessionService.getLeaderboard, run.
    destruct supabase as [c|].
    2:{ exists [], None. split; [reflexivity|]. split; [simpl; lia|].
        split; [constructor|]. split; [constructor|]. split; [intros r []|].
        split; [intros c H; discriminate | reflexivity]. }
    destruct (network env) eqn:Hn.
    2:{ eexists [], _. split; [reflexivity|]. split; [simpl; lia|].
        split; [constructor|]. split; [constructor|]. split; [intros r []|].
        split; [intros c0 _ H; discriminate | reflexivity]. }
    eexists _, _. split; [reflexivity|].
    set (n := match limit with Some n => n | None => 50 end).
    change (rows_of (GameSessionService.leaderboard_query n) (table c))
      with (map (fun r : Row => r) (ordered_rows (GameSessionService.leaderboard_query n) (table c))).
    rewrite map_id. split; [|split; [|split; [|split; [|split]]]].
    + apply ordered_rows_length. reflexivity.
    + eapply StronglySorted_weaken; [|apply ordered_rows_sorted].
      intros a b. apply keys_rank. auto.
    + eapply StronglySorted_weaken; [|apply ordered_rows_sorted].
      intros a b. apply keys_order. auto.
    + intros r H. apply ordered_rows_In in H as [H _]. eauto.
    + intros c0 [= <-] _.
      exists (stable_sort
                (fun a b =>
                   lex_leb (sort_key (orders (GameSessionService.leaderboard_query n)) a)
                           (sort_key (orders (GameSessionService.leaderboard_query n)) b))
                (table c)).
      split; [apply stable_sort_perm|]. split.
      * eapply StronglySorted_weaken; [|apply stable_sort_sorted].
        -- intros a b. apply keys_order. auto.
        -- intros a b. apply lex_leb_total.
        -- intros a b d. apply lex_leb_trans.
      * unfold ordered_rows, limited.
        rewrite selected_unfiltered by reflexivity. reflexivity.
    + intros [H | (m & H)]; discriminate.
  - unfold LegacySessionService.getLeaderboard, run.
    destruct supabase as [c|].
    2:{ exists [], None. split; [reflexivity|]. split; [simpl; lia|].
        split; [constructor|]. split; [constructor|]. split; [intros r []|].
        split; [intros c H; discriminate | reflexivity]. }
    destruct (network env) eqn:Hn.
    2:{ eexists [], _. split; [reflexivity|]. split; [simpl; lia|].
        split; [constructor|]. split; [constructor|]. split; [intros r []|].
        split; [intros c0 _ H; discriminate | reflexivity]. }
    eexists _, _. split; [reflexivity|].
    set (n := match limit with Some n => n | None => 10 end).
    change (rows_of (LegacySessionService.leaderboard_query n) (table c))
      with (map (project (Some ["player_name"; "total_score"; "total_time"; "created_at"]))
                (ordered_rows (LegacySessionService.leaderboard_query n) (table c))).
    split; [|split; [|split; [|split; [|split]]]].
    + rewrite length_map. apply ordered_rows_length. reflexivity.
    + apply StronglySorted_map_intro.
      eapply StronglySorted_weaken; [|apply ordered_rows_sorted].
      intros a b H. apply ranked_before_projected. revert H. apply keys_rank. auto.
    + apply StronglySorted_map_intro.
      eapply StronglySorted_weaken; [|apply ordered_rows_sorted].
      intros a b H. apply leaderboard_before_projected. revert H. apply keys_order. auto.
    + intros r H. apply in_map_iff in H as (r0 & <- & H).
      apply ordered_rows_In in H as [H F]. simpl in F.
      apply andb_true_iff in F as [F _].
      exists c, r0. repeat split; auto using matches_true.
    + intros c0 [= <-] _.
      exists (stable_sort
                (fun a b =>
                   lex_leb (sort_key (orders (LegacySessionService.leaderboard_query n)) a)
                           (sort_key (orders (LegacySessionService.leaderboard_query n)) b))
                (completed_rows c)).
      split; [apply stable_sort_perm|]. split.
      * eapply StronglySorted_weaken; [|apply stable_sort_sorted].
        -- intros a b. apply keys_order. auto.
        -- intros a b. apply lex_leb_total.
        -- intros a b d. apply lex_leb_trans.
      * unfold ordered_rows, limited, completed_rows, selected. simpl.
        do 3 f_equal. apply filter_ext. intros r. apply andb_true_r.
    + intros [H | (m & H)]; discriminate.
Qed.

End PersistedLeaderboard.

(* ================================================================== *)
(** * Creating a session *)

Section Sessions.

Import Supabase Spec.

Lemma local_id_prefix env : startsWith (local_id env) "local-" = true.
Proof.
  unfold startsWith, local_id. simpl.
  destruct (string_of_Z (now env)); reflexivity.
Qed.

(** C7. [createSession] of either service always returns: it never
    throws. When no store is configured, or when the insert comes back with
    an error, what it returns is a local session whose identifier starts
    with "local-" and which carries the player name. *)
Theorem createSession_falls_back_to_local_session
  supabase env playerName avatarUrl apiKey :
  (exists session client,
     GameSessionService.createSession supabase env playerName avatarUrl
       = (Returned session, client) /\
     ((supabase = None \/
       exists c, supabase = Some c /\
                 error (fst (insert_single env
                               (GameSessionService.new_session playerName avatarUrl) c))
                 <> None) ->
      startsWith (session_id session) "local-" = true /\
      str_col "player_name" session = Some playerName)) /\
  (exists session client,
     LegacySessionService.createSession supabase env playerName apiKey
       = (Returned session, client) /\
     ((supabase = None \/
       exists c, supabase = Some c /\
                 error (fst (insert_single env
                               (LegacySessionService.new_session env playerName apiKey) c))
                 <> None) ->
      startsWith (session_id session) "local-" = true /\
      str_col "playerName" session = Some playerName)).
Proof.
  split.
  - unfold GameSessionService.createSession.
    destruct supabase as [c|].
    + destruct (insert_single env _ c) as [reply c'] eqn:E.
      unfold checked_data, checked.
      destruct (error reply) as [e|] eqn:Ee; [|destruct (data reply) as [d|]]; simpl;
        eexists _, _; (split; [reflexivity|]);
        intros [H | (c0 & H & Herr)]; try discriminate;
        try (split; [apply local_id_prefix | reflexivity]).
      injection H as <-. rewrite E in Herr. simpl in Herr. congruence.
    + eexists _, _. split; [reflexivity|]. intros _.
      split; [apply local_id_prefix | reflexivity].
  - unfold LegacySessionService.createSession.
    destruct supabase as [c|].
    + destruct (insert_single env _ c) as [reply c'] eqn:E.
      unfold checked_data, checked.
      destruct (error reply) as [e|] eqn:Ee; [|destruct (data reply) as [d|]]; simpl;
        eexists _, _; (split; [reflexivity|]);
        intros [H | (c0 & H & Herr)]; try discriminate;
        try (split; [apply local_id_prefix | reflexivity]).
      injection H as <-. rewrite E in Herr. simpl in Herr. congruence.
    + eexists _, _. split; [reflexivity|]. intros _.
      split; [apply local_id_prefix | reflexivity].
Qed.

(** With the store reachable and the identifier free, [createSession]
    stores and returns the inserted object, completed by the column
    defaults and the identifier. *)
Lemma createSession_stores c env playerName avatarUrl :
  network env = Online ->
  existsb (matches "id" (JStr (uuid env))) (table c) = false ->
  GameSessionService.createSession (Some c) env playerName avatarUrl =
    (Returned (JsMap.set "id" (JStr (uuid env))
                 (JsMap.spread (defaults c)
                    (GameSessionService.new_session playerName avatarUrl))),
     Some (contact c
             (table c ++
              [JsMap.set "id" (JStr (uuid env))
                 (JsMap.spread (defaults c)
                    (GameSessionService.new_session playerName avatarUrl))]))).
Proof.
  intros Hn Hf. unfold GameSessionService.createSession, insert_single.
  rewrite Hn, Hf. reflexivity.
Qed.

(** C9 (as the code has it). When the store is configured and reachable
    and the new identifier is free, a session created without an avatar is
    stored with the generated avatar: the fixed address followed by the
    player name. The live profile of a join takes the avatar of the event
    as it is, so none when the event has none. *)
Theorem session_avatar_defaults_to_placeholder c env playerName avatarUrl :
  network env = Online ->
  existsb (matches "id" (JStr (uuid env))) (table c) = false ->
  truthy avatarUrl = false ->
  (exists session client,
     GameSessionService.createSession (Some c) env playerName avatarUrl
       = (Returned session, Some client) /\
     In session (table client) /\
     str_col "avatar_url" session =
       Some (String.append "https://api.dicebear.com/7.x/bottts/svg?seed=" playerName) /\
     contains (String.append "https://api.dicebear.com/7.x/bottts/svg?seed=" playerName)
              playerName) /\
  (forall socket userData joinEnv st,
     Server.join_avatarUrl userData = None ->
     JsMap.get (Server.join_username userData) (Server.persistentPlayers st) = None ->
     option_map Server.avatarUrl
       (JsMap.get (Server.join_username userData)
          (Server.persistentPlayers (fst (Server.on_join socket userData joinEnv st))))
     = Some None).
Proof.
  intros Hn Hf Ha. split.
  - rewrite (createSession_stores c env playerName avatarUrl Hn Hf).
    eexists _, _. split; [reflexivity|]. split; [|split].
    + simpl. apply in_or_app. right. left. reflexivity.
    + unfold str_col. rewrite get_set, get_spread. simpl.
      destruct avatarUrl as [a|]; [|reflexivity].
      simpl in Ha. rewrite Ha. reflexivity.
    + exists "https://api.dicebear.com/7.x/bottts/svg?seed=", "".
      clear. f_equal. induction playerName as [|ch r IH]; simpl; [reflexivity|].
      f_equal. exact IH.
  - intros socket userData joinEnv st Hu G.
    rewrite (join_stores_given_avatar socket userData joinEnv st G). simpl.
    rewrite Hu. reflexivity.
Qed.

(** C10. For a session identifier that starts with "local-", every
    operation that takes one returns at once with its empty result ([null]
    or [false]) and leaves the client as it was, its request count
    included: the store is not contacted. Fetching such a session through
    the REST handler answers 404. *)
Theorem local_session_short_circuits
  supabase env sessionId updates data roundScore roundTime previousTotalScore totalGameTime
  roundNumber roundData finalData :
  startsWith sessionId "local-" = true ->
  GameSessionService.updateSession supabase env sessionId updates = (Returned None, supabase) /\
  GameSessionService.saveRound1Data supabase env sessionId data roundScore roundTime
    = (Returned false, supabase) /\
  GameSessionService.saveRound2Data supabase env sessionId data roundScore roundTime
    previousTotalScore = (Returned false, supabase) /\
  GameSessionService.saveRound3Data supabase env sessionId data roundScore roundTime
    previousTotalScore totalGameTime = (Returned false, supabase) /\
  GameSessionService.getSession supabase env sessionId = (Returned None, supabase) /\
  LegacySessionService.updateRoundData supabase env sessionId roundNumber roundData
    = (Returned None, supabase) /\
  LegacySessionService.completeSession supabase env sessionId finalData
    = (Returned None, supabase) /\
  LegacySessionService.getSession supabase env sessionId = (Returned None, supabase) /\
  Api.http_status (fst (Api.get_session supabase env sessionId)) = 404 /\
  snd (Api.get_session supabase env sessionId) = supabase.
Proof.
  intros H.
  unfold GameSessionService.updateSession, GameSessionService.saveRound1Data,
    GameSessionService.saveRound2Data, GameSessionService.saveRound3Data,
    GameSessionService.save_round, GameSessionService.getSession,
    LegacySessionService.updateRoundData, LegacySessionService.completeSession,
    LegacySessionService.getSession, Api.get_session, GameSessionService.getSession.
  destruct supabase as [c|]; rewrite ?H; simpl; repeat split; reflexivity.
Qed.

End Sessions.

(* ================================================================== *)
(** * The results on concrete stores *)

Section Concrete.

Import Supabase Spec.



Lemma round1_then_round2_totals_witness :
  (forall r, In r (session_rows alice_id after_round1) ->
     str_col "status" r = Some "Round 2" /\
     num_col "rounds_completed" r = Some 1%Z /\
     num_col "total_score" r = Some 10%Z) /\
  (forall r, In r (session_rows alice_id after_round2) ->
     num_col "total_score" r = Some (10 + 15)%Z /\
     str_col "status" r = Some "Round 3") /\
  List.length (session_rows alice_id after_round1) = List.length (session_rows alice_id alice_store) /\
  List.length (session_rows alice_id after_round2) = List.length (session_rows alice_id alice_store).
Proof.
  apply (@round1_then_round2_totals alice_store second_env alice_id (JArr []) 10 5000
           after_round1 second_env (JArr []) 15 3000 10 after_round2);
    vm_compute; reflexivity.
Defined.

(** C5 (as the specification words it) fails for the round-based service.
    Alice's session was just created, its status is "Playing", and the
    leaderboard returns it. *)
Lemma leaderboard_returns_unfinished_sessions :
  exists r,
    fst (GameSessionService.getLeaderboard alice_store second_env (Some 50)) = Returned [r] /\
    str_col "status" r = Some "Playing" /\
    ~ (forall rows,
         fst (GameSessionService.getLeaderboard alice_store second_env (Some 50)) = Returned rows ->
         forall r', In r' rows -> str_col "status" r' = Some "Finished").
Proof.
  assert (E : exists r,
             fst (GameSessionService.getLeaderboard alice_store second_env (Some 50))
               = Returned [r] /\
             str_col "status" r = Some "Playing").
  { eexists. split; vm_compute; reflexivity. }
  destruct E as (r & E & S). exists r. split; [exact E|]. split; [exact S|].
  intros H. specialize (H _ E r (or_introl eq_refl)). congruence.
Qed.

Lemma createSession_falls_back_to_local_session_witness :
  exists session client,
    GameSessionService.createSession (Some no_rows) offline_env "alice" None
      = (Returned session, client) /\
    startsWith (session_id session) "local-" = true /\
    str_col "player_name" session = Some "alice".
Proof.
  destruct (createSession_falls_back_to_local_session
              (Some no_rows) offline_env "alice" None None)
    as [(session & client & E & H) _].
  exists session, client. split; [exact E|].
  apply H. right. exists no_rows. split; [reflexivity|]. simpl. discriminate.
Defined.

Lemma session_avatar_defaults_to_placeholder_witness :
  exists session client,
    GameSessionService.createSession (Some no_rows) first_env "alice" None
      = (Returned session, Some client) /\
    In session (table client) /\
    str_col "avatar_url" session = Some "https://api.dicebear.com/7.x/bottts/svg?seed=alice" /\
    contains "https://api.dicebear.com/7.x/bottts/svg?seed=alice" "alice".
Proof.
  apply (session_avatar_defaults_to_placeholder no_rows first_env "alice" None
           eq_refl eq_refl eq_refl).
Defined.

Lemma local_session_short_circuits_witness :
  GameSessionService.getSession alice_store second_env "local-1700000000000"
    = (Returned None, alice_store) /\
  Api.http_status (fst (Api.get_session alice_store second_env "local-1700000000000")) = 404.
Proof.
  pose proof (@local_session_short_circuits alice_store second_env "local-1700000000000"
                [] (JArr []) 0%Z 0%Z 0%Z 0%Z (JNum 1) [] [] eq_refl) as H.
  split; [apply H|]. apply H.
Defined.

End Concrete.

(* ================================================================== *)
(** * Updating sessions and saving rounds: more on the store *)

Section StoreUpdates.

Import Supabase.

Lemma get_app {V} (m1 m2 : JsMap.t V) k :
  JsMap.get k (m1 ++ m2) =
  match JsMap.get k m1 with
  | Some v => Some v
  | None => JsMap.get k m2
  end.
Proof.
  induction m1 as [|[k0 v0] r IH]; simpl; [reflexivity|].
  destruct (String.eqb k k0); [reflexivity | exact IH].
Qed.

(** In an object, where each key occurs once, the last write of a key is
    its only write. *)
Lemma get_rev {V} (m : JsMap.t V) k :
  NoDup (JsMap.keys m) -> JsMap.get k (rev m) = JsMap.get k m.
Proof.
  induction m as [|[k0 v0] r IH]; simpl; [reflexivity|].
  intros Hnd. inversion Hnd as [|? ? Hnot Hr]; subst.
  rewrite get_app, IH by assumption. simpl.
  destruct (String.eqb k k0) eqn:E.
  - apply String.eqb_eq in E. subst k0.
    destruct (JsMap.get k r) eqn:G; [|reflexivity].
    exfalso. apply Hnot. apply get_In_keys. congruence.
  - destruct (JsMap.get k r); reflexivity.
Qed.

Lemma set_same {V} (m : JsMap.t V) k v : JsMap.get k m = Some v -> JsMap.set k v m = m.
Proof.
  induction m as [|[k0 v0] r IH]; simpl; [discriminate|].
  destruct (String.eqb k k0) eqn:E.
  - apply String.eqb_eq in E. intros [= ->]. subst. reflexivity.
  - intros H. rewrite IH by exact H. reflexivity.
Qed.

Lemma spread_fixed {V} (m patch : JsMap.t V) :
  (forall k v, In (k, v) patch -> JsMap.get k m = Some v) -> JsMap.spread m patch = m.
Proof.
  unfold JsMap.spread. induction patch as [|[k v] r IH]; simpl; intros H; [reflexivity|].
  rewrite set_same by (apply H; left; reflexivity).
  apply IH. intros k' v' Hin. apply H. right. exact Hin.
Qed.

Lemma In_get {V} (m : JsMap.t V) k v :
  NoDup (JsMap.keys m) -> In (k, v) m -> JsMap.get k m = Some v.
Proof.
  induction m as [|[k0 v0] r IH]; simpl; [tauto|].
  intros Hnd [H|H]; inversion Hnd as [|? ? Hnot Hr]; subst.
  - injection H as -> ->. rewrite String.eqb_refl. reflexivity.
  - destruct (String.eqb k k0) eqn:E; [|auto].
    apply String.eqb_eq in E. subst k0. exfalso. apply Hnot.
    change k with (fst (k, v)). apply in_map, H.
Qed.

(** Spreading the same object twice is spreading it once. *)
Lemma spread_twice {V} (m patch : JsMap.t V) :
  NoDup (JsMap.keys patch) ->
  JsMap.spread (JsMap.spread m patch) patch = JsMap.spread m patch.
Proof.
  intros Hnd. apply spread_fixed. intros k v Hin.
  rewrite get_spread, get_rev by exact Hnd.
  rewrite (In_get _ _ _ Hnd Hin). reflexivity.
Qed.


Lemma filter_updated patch col v rows :
  JsMap.get col (rev patch) = None ->
  filter (matches col v) (updated patch col v rows) =
  map (fun r => JsMap.spread r patch) (filter (matches col v) rows).
Proof.
  intros H. unfold updated.
  induction rows as [|r rows IH]; simpl; [reflexivity|].
  destruct (matches col v r) eqn:E.
  - rewrite matches_spread, E by exact H. simpl. rewrite IH. reflexivity.
  - rewrite E. exact IH.
Qed.



Lemma single_ok (rows : list Row) (r : Row) : single rows = ok r -> rows = [r].
Proof.
  destruct rows as [|x [|y rest]]; unfold single, ok, failed; try discriminate.
  intros [= ->]. reflexivity.
Qed.

Lemma map_singleton {A B} (f : A -> B) l y :
  map f l = [y] -> exists x, l = [x] /\ y = f x.
Proof.
  destruct l as [|x [|z r]]; simpl; try discriminate.
  intros [= <-]. eauto.
Qed.

(** What [updateSession] returns and does to the table, case by case. *)
Lemma updateSession_cases supabase env sessionId updates :
  GameSessionService.updateSession supabase env sessionId updates =
  match supabase with
  | None => (Returned None, None)
  | Some c =>
      if startsWith sessionId "local-" then (Returned None, Some c)
      else
        let patch := JsMap.spread updates [("updated_at", JStr (iso_now env))] in
        match network env with
        | Offline _ => (Returned None, Some (contact c (table c)))
        | Online =>
            (Returned
               match filter (matches "id" (JStr sessionId))
                            (updated patch "id" (JStr sessionId) (table c)) with
               | [r] => Some r
               | _ => None
               end,
             Some (contact c (updated patch "id" (JStr sessionId) (table c))))
        end
  end.
Proof.
  unfold GameSessionService.updateSession, update_eq_single.
  destruct supabase as [c|]; [|reflexivity].
  destruct (startsWith sessionId "local-"); [reflexivity|].
  destruct (network env); [|reflexivity].
  simpl.
  destruct (filter _ _) as [|r [|r' rest]]; reflexivity.
Qed.


(** X2. When [updateSession] returns a row, that row is the one stored row
    of the session, and every column the update does not name is in it as
    it was, [updated_at] aside. The update is an object (each key once)
    that does not write the identifier. *)
Theorem updateSession_keeps_the_columns_it_is_not_given
  supabase env sessionId updates row client :
  NoDup (JsMap.keys updates) ->
  JsMap.get "id" updates = None ->
  GameSessionService.updateSession supabase env sessionId updates
    = (Returned (Some row), client) ->
  session_rows sessionId client = [row] /\
  exists old,
    session_rows sessionId supabase = [old] /\
    forall k, k <> "updated_at" -> JsMap.get k updates = None ->
              JsMap.get k row = JsMap.get k old.
Proof.
  intros Hnd Hid. rewrite updateSession_cases.
  destruct supabase as [c|]; [|discriminate].
  destruct (startsWith sessionId "local-"); [discriminate|].
  simpl. destruct (network env); [|discriminate].
  set (patch := JsMap.set "updated_at" (JStr (iso_now env)) updates).
  assert (Hp : NoDup (JsMap.keys patch)) by (apply NoDup_keys_set, Hnd).
  assert (Hg : forall k, JsMap.get k (rev patch) =
                         if String.eqb k "updated_at" then Some (JStr (iso_now env))
                         else JsMap.get k updates).
  { intros k. rewrite get_rev by exact Hp. apply get_set. }
  assert (Hpid : JsMap.get "id" (rev patch) = None) by (rewrite Hg; exact Hid).
  rewrite filter_updated by exact Hpid.
  destruct (map _ _) as [|r [|r' rest]] eqn:E; try discriminate.
  intros [= -> <-].
  apply map_singleton in E as (old & Eold & ->).
  split.
  - simpl. rewrite filter_updated by exact Hpid. rewrite Eold. reflexivity.
  - exists old. split; [exact Eold|].
    intros k Hk G. rewrite get_spread, Hg.
    apply String.eqb_neq in Hk. rewrite Hk, G. reflexivity.
Qed.

End StoreUpdates.

Section MoreRoundSaves.

Import Supabase GameSessionService.

Ltac distinct_keys :=
  repeat (constructor; [simpl; intuition discriminate|]); constructor.

Lemma round1_patch_keys data s t :
  NoDup (JsMap.keys
           [("round1_data", data); ("round1_score", JNum s); ("round1_time", JNum t);
            ("total_score", JNum s); ("rounds_completed", JNum 1);
            ("current_round", JNum 2); ("status", JStr "Round 2")]).
Proof. distinct_keys. Qed.

Lemma round2_patch_keys data s t total :
  NoDup (JsMap.keys
           [("round2_data", data); ("round2_score", JNum s); ("round2_time", JNum t);
            ("total_score", JNum total); ("rounds_completed", JNum 2);
            ("current_round", JNum 3); ("status", JStr "Round 3")]).
Proof. distinct_keys. Qed.

Lemma round3_patch_keys data s t total time :
  NoDup (JsMap.keys
           [("round3_data", data); ("round3_score", JNum s); ("round3_time", JNum t);
            ("total_score", JNum total); ("total_time", JNum time);
            ("rounds_completed", JNum 3); ("current_round", JNum 3);
            ("status", JStr "Finished")]).
Proof. distinct_keys. Qed.

(** A well-formed identifier is not a local one. *)
Lemma uuid_is_not_local s : is_uuid s = true -> startsWith s "local-" = false.
Proof.
  intros H. destruct (startsWith s "local-") eqn:E; [|reflexivity].
  exfalso. unfold startsWith in E. apply String.prefix_correct in E.
  destruct s as [|ch rest]; [discriminate|].
  simpl in E. injection E as -> _.
  vm_compute in H. discriminate.
Qed.





Lemma save_round_again supabase env env' sessionId patch c1 c2 :
  NoDup (JsMap.keys patch) ->
  JsMap.get "id" (rev patch) = None ->
  save_round supabase env sessionId patch = (Returned true, Some c1) ->
  save_round (Some c1) env' sessionId patch = (Returned true, Some c2) ->
  table c2 = table c1.
Proof.
  intros Hnd Hid H1 H2.
  apply save_round_true in H1 as (c & -> & [= ->]).
  apply save_round_true in H2 as (c1 & [= <-] & [= ->]).
  simpl. unfold updated. rewrite map_map. apply map_ext. intros r.
  destruct (matches "id" (JStr sessionId) r) eqn:E.
  - rewrite matches_spread, E by exact Hid. apply spread_twice, Hnd.
  - rewrite E. reflexivity.
Qed.

(** X5. Saving a round a second time with the same arguments, after a
    first save that succeeded, leaves the table exactly as the first save
    left it. *)
Theorem round_save_repeated_changes_nothing
  supabase env env' sessionId data roundScore roundTime previousTotalScore totalGameTime
  c1 c2 :
  (saveRound1Data supabase env sessionId data roundScore roundTime
     = (Returned true, Some c1) ->
   saveRound1Data (Some c1) env' sessionId data roundScore roundTime
     = (Returned true, Some c2) ->
   table c2 = table c1) /\
  (saveRound2Data supabase env sessionId data roundScore roundTime previousTotalScore
     = (Returned true, Some c1) ->
   saveRound2Data (Some c1) env' sessionId data roundScore roundTime previousTotalScore
     = (Returned true, Some c2) ->
   table c2 = table c1) /\
  (saveRound3Data supabase env sessionId data roundScore roundTime previousTotalScore
     totalGameTime = (Returned true, Some c1) ->
   saveRound3Data (Some c1) env' sessionId data roundScore roundTime previousTotalScore
     totalGameTime = (Returned true, Some c2) ->
   table c2 = table c1).
Proof.
  repeat split; apply save_round_again;
    auto using round1_patch_keys, round2_patch_keys, round3_patch_keys.
Qed.

Lemma stable_sort_unordered {A} (leb : A -> A -> bool) l :
  (forall a b, leb a b = true) -> stable_sort leb l = l.
Proof.
  intros H. induction l as [|x r IH]; simpl; [reflexivity|].
  rewrite IH. destruct r as [|y r']; simpl; [reflexivity|].
  rewrite H. reflexivity.
Qed.

Lemma filter_none {A} (f : A -> bool) l : existsb f l = false -> filter f l = [].
Proof.
  induction l as [|x r IH]; simpl; [reflexivity|].
  destruct (f x); simpl; [discriminate | exact IH].
Qed.

(** The rows returned by a query with one filter and nothing else. *)
Lemma rows_of_filter col v rows :
  rows_of (eq col v (game_sessions select_all)) rows = filter (matches col v) rows.
Proof.
  unfold rows_of, ordered_rows, limited, selected, project. simpl.
  rewrite map_id, stable_sort_unordered by reflexivity.
  apply filter_ext. intros r. apply andb_true_r.
Qed.

(** X6. With the store reachable and the new identifier free,
    [createSession] adds exactly one row, the session it returns, and
    [getSession] with the identifier of that session returns the same
    session. *)
Theorem created_session_is_fetched_back c env env' playerName avatarUrl :
  network env = Online ->
  network env' = Online ->
  existsb (matches "id" (JStr (uuid env))) (table c) = false ->
  startsWith (uuid env) "local-" = false ->
  exists session c',
    createSession (Some c) env playerName avatarUrl = (Returned session, Some c') /\
    session_id session = uuid env /\
    table c' = table c ++ [session] /\
    fst (getSession (Some c') env' (session_id session)) = Returned (Some session).
Proof.
  intros Hn Hn' Hf Hl.
  rewrite (createSession_stores c env playerName avatarUrl Hn Hf).
  eexists _, _. split; [reflexivity|].
  assert (Hid : session_id
                  (JsMap.set "id" (JStr (uuid env))
                     (JsMap.spread (defaults c) (new_session playerName avatarUrl)))
                = uuid env).
  { unfold session_id, str_col. rewrite get_set_same. reflexivity. }
  split; [exact Hid|]. split; [reflexivity|].
  rewrite Hid. unfold getSession, run_single. rewrite Hl, Hn'. simpl.
  rewrite rows_of_filter, filter_app, (filter_none _ _ Hf). simpl.
  unfold matches. rewrite get_set_same. simpl. rewrite String.eqb_refl. reflexivity.
Qed.

End MoreRoundSaves.

(* ================================================================== *)
(** * Histories, all sessions and statistics *)

Section Listings.

Import Supabase.

Lemma rows_of_all q rows : columns q = None -> rows_of q rows = ordered_rows q rows.
Proof. intros H. unfold rows_of. rewrite H. apply map_id. Qed.

Lemma ordered_rows_unlimited q rows :
  limit_count q = None -> Permutation (ordered_rows q rows) (selected q rows).
Proof.
  intros H. unfold ordered_rows, limited. rewrite H. apply stable_sort_perm.
Qed.

Lemma ordered_rows_within_limit q rows n :
  limit_count q = Some n -> List.length rows <= n ->
  Permutation (ordered_rows q rows) (selected q rows).
Proof.
  intros H Hn. unfold ordered_rows, limited. rewrite H.
  rewrite firstn_all2; [apply stable_sort_perm|].
  rewrite stable_sort_length. unfold selected.
  eapply Nat.le_trans; [apply filter_length_le | exact Hn].
Qed.

Lemma selected_one_filter q col v rows :
  filters q = [(col, v)] -> selected q rows = filter (matches col v) rows.
Proof.
  intros H. unfold selected. rewrite H. apply filter_ext.
  intros r. simpl. apply andb_true_r.
Qed.

Lemma selected_no_filter q rows : filters q = [] -> selected q rows = rows.
Proof.
  intros H. unfold selected. rewrite H. simpl.
  induction rows as [|r rows IH]; simpl; [reflexivity | rewrite IH; reflexivity].
Qed.

Lemma matches_str col v r :
  matches col (JStr v) r = true -> str_col col r = Some v.
Proof.
  unfold matches, str_col.
  destruct (JsMap.get col r) as [[| | | s | |]|]; simpl; try discriminate.
  intros H. apply String.eqb_eq in H. subst. reflexivity.
Qed.

(** Creation time descending, as sort keys. *)
Lemma keys_newer a b :
  lex_leb
    (sort_key [{| column := "created_at"; ascending := false; nullsFirst := None |}] a)
    (sort_key [{| column := "created_at"; ascending := false; nullsFirst := None |}] b) = true ->
  newer_first a b.
Proof.
  intros H ta tb Ha Hb. revert H.
  unfold sort_key, order_key. simpl. rewrite Ha, Hb. simpl.
  repeat match goal with
         | |- context [Z.ltb ?x ?y] => destruct (Z.ltb_spec x y)
         end; intros K; try discriminate; lia.
Qed.

(** The sessions of one player, newest first: what both history queries
    return on a reachable store. *)
Lemma history_rows playerName rows :
  let q := order "created_at" false None
             (eq "player_name" (JStr playerName) (game_sessions select_all)) in
  StronglySorted newer_first (rows_of q rows) /\
  (forall r, In r (rows_of q rows) -> str_col "player_name" r = Some playerName) /\
  Permutation (rows_of q rows) (filter (matches "player_name" (JStr playerName)) rows).
Proof.
  intros q. rewrite rows_of_all by reflexivity. split; [|split].
  - eapply StronglySorted_weaken; [|apply ordered_rows_sorted].
    intros a b. apply keys_newer.
  - intros r H. apply ordered_rows_In in H as [_ F]. simpl in F.
    apply andb_true_iff in F as [F _]. apply matches_str, F.
  - rewrite <- (@selected_one_filter q "player_name" (JStr playerName) rows eq_refl).
    apply ordered_rows_unlimited. reflexivity.
Qed.

(** X7. [getPlayerHistory] always returns a list. With the store reachable
    it is exactly the stored sessions of that player, each once, the newest
    first; with no store configured or the store out of reach it is
    empty. *)
Theorem player_history_is_the_sessions_of_the_player supabase env playerName :
  exists rows client,
    GameSessionService.getPlayerHistory supabase env playerName = (Returned rows, client) /\
    StronglySorted newer_first rows /\
    (forall r, In r rows -> str_col "player_name" r = Some playerName) /\
    (forall c, supabase = Some c -> network env = Online ->
       Permutation rows (filter (matches "player_name" (JStr playerName)) (table c))) /\
    (supabase = None \/ (exists m, network env = Offline m) -> rows = []).
Proof.
  unfold GameSessionService.getPlayerHistory, run.
  destruct supabase as [c|].
  2:{ exists [], None. split; [reflexivity|]. split; [constructor|].
      split; [intros r []|]. split; [intros c H; discriminate | reflexivity]. }
  destruct (network env) eqn:Hn.
  - destruct (history_rows playerName (table c)) as (Hs & Hp & Hperm).
    eexists _, _. split; [reflexivity|]. simpl.
    split; [exact Hs|]. split; [exact Hp|]. split.
    + intros c0 [= <-] _. exact Hperm.
    + intros [H | (m & H)]; discriminate.
  - eexists [], _. split; [reflexivity|]. split; [constructor|].
    split; [intros r []|]. split; [intros c0 _ H; discriminate | reflexivity].
Qed.

(** X8. [getPlayerSessions] of the earlier service behaves the same: the
    stored sessions of that player, each once, the newest first, and an
    empty list with no store or with the store out of reach. *)
Theorem player_sessions_are_the_sessions_of_the_player supabase env playerName :
  exists rows client,
    LegacySessionService.getPlayerSessions supabase env playerName = (Returned rows, client) /\
    StronglySorted newer_first rows /\
    (forall r, In r rows -> str_col "player_name" r = Some playerName) /\
    (forall c, supabase = Some c -> network env = Online ->
       Permutation rows (filter (matches "player_name" (JStr playerName)) (table c))) /\
    (supabase = None \/ (exists m, network env = Offline m) -> rows = []).
Proof.
  unfold LegacySessionService.getPlayerSessions, run.
  destruct supabase as [c|].
  2:{ exists [], None. split; [reflexivity|]. split; [constructor|].
      split; [intros r []|]. split; [intros c H; discriminate | reflexivity]. }
  destruct (network env) eqn:Hn.
  - destruct (history_rows playerName (table c)) as (Hs & Hp & Hperm).
    eexists _, _. split; [reflexivity|]. simpl.
    split; [exact Hs|]. split; [exact Hp|]. split.
    + intros c0 [= <-] _. exact Hperm.
    + intros [H | (m & H)]; discriminate.
  - eexists [], _. split; [reflexivity|]. split; [constructor|].
    split; [intros r []|]. split; [intros c0 _ H; discriminate | reflexivity].
Qed.


End Listings.

Section Statistics.

Import Supabase GameSessionService.

Lemma projected_score r :
  num_col "total_score" (project (Some ["total_score"]) r) = num_col "total_score" r.
Proof.
  unfold num_col, project. simpl.
  destruct (JsMap.get "total_score" r); reflexivity.
Qed.

Lemma sum_scores_from (l : list Row) acc :
  fold_left (fun sum s => (sum + match num_col "total_score" s with
                                 | Some n => n
                                 | None => 0
                                 end)%Z) l acc
  = (acc + sum_scores l)%Z.
Proof.
  unfold sum_scores. revert acc. induction l as [|r l IH]; intros acc; cbn [fold_left]; [lia|].
  rewrite (IH (acc + _)%Z), (IH (0 + _)%Z). lia.
Qed.

Lemma sum_scores_cons r l : sum_scores (r :: l) = (score_of r + sum_scores l)%Z.
Proof.
  unfold sum_scores at 1. simpl. rewrite sum_scores_from. unfold score_of. lia.
Qed.

Lemma sum_scores_projected l :
  sum_scores (map (project (Some ["total_score"])) l) = sum_scores l.
Proof.
  induction l as [|r l IH]; [reflexivity|].
  cbn [map]. rewrite !sum_scores_cons, IH. unfold score_of.
  rewrite projected_score. reflexivity.
Qed.

Lemma sum_scores_bounds l lo hi :
  (forall r, In r l -> (lo <= score_of r <= hi)%Z) ->
  (Z.of_nat (List.length l) * lo <= sum_scores l <= Z.of_nat (List.length l) * hi)%Z.
Proof.
  induction l as [|r l IH]; intros H.
  - unfold sum_scores. simpl. lia.
  - rewrite sum_scores_cons.
    assert (Hr := H r (or_introl eq_refl)).
    assert (Hl := IH (fun x Hx => H x (or_intror Hx))).
    simpl List.length. lia.
Qed.

Lemma round_div_bounds sum n lo hi :
  0 < n ->
  (Z.of_nat n * lo <= sum <= Z.of_nat n * hi)%Z ->
  (lo <= round_div sum n <= hi)%Z.
Proof.
  intros Hn H. unfold round_div. split.
  - apply Z.div_le_lower_bound; lia.
  - apply Z.lt_succ_r. apply Z.div_lt_upper_bound; lia.
Qed.

(** The rows returned by the third request of [getStats]. *)
Lemma finished_scores c :
  rows_of (eq "status" (JStr "Finished") (game_sessions (select ["total_score"]))) (table c)
  = map (project (Some ["total_score"])) (finished c).
Proof.
  unfold rows_of, ordered_rows, limited, finished. simpl.
  rewrite stable_sort_unordered by reflexivity.
  f_equal. unfold selected. apply filter_ext. intros r. simpl. apply andb_true_r.
Qed.

(** X10. [getStats] always returns. With no store configured the three
    numbers are zero. With the store reachable for its three requests, the
    total is the number of stored sessions, the completed games are the
    sessions whose status is "Finished" (never more than the total), and
    the average is zero when there is no such session and otherwise lies
    between the lowest and the highest total score of those sessions, a
    missing score counting as zero. *)
Theorem stats_count_sessions_and_average_finished_scores supabase env1 env2 env3 :
  exists stats client,
    getStats supabase env1 env2 env3 = (Returned stats, client) /\
    (supabase = None ->
     stats = {| totalPlayers := 0; completedGames := 0; averageScore := 0 |}) /\
    forall c, supabase = Some c ->
      network env1 = Online -> network env2 = Online -> network env3 = Online ->
      totalPlayers stats = List.length (table c) /\
      completedGames stats = List.length (finished c) /\
      completedGames stats <= totalPlayers stats /\
      (finished c = [] -> averageScore stats = 0%Z) /\
      forall lo hi,
        finished c <> [] ->
        (forall r, In r (finished c) -> (lo <= score_of r <= hi)%Z) ->
        (lo <= averageScore stats <= hi)%Z.
Proof.
  unfold getStats.
  destruct supabase as [c|].
  2:{ eexists _, _. split; [reflexivity|]. split; [reflexivity|].
      intros c H. discriminate. }
  destruct (run_count env1 _ c) as [total c1] eqn:E1.
  destruct (run_count env2 _ c1) as [completed c2] eqn:E2.
  destruct (run env3 _ c2) as [reply c3] eqn:E3.
  eexists _, _. split; [reflexivity|]. split; [discriminate|].
  intros c0 [= <-] H1 H2 H3.
  unfold run_count in E1, E2. unfold run in E3.
  rewrite H1 in E1. rewrite H2 in E2. rewrite H3 in E3.
  injection E1 as <- <-. injection E2 as <- <-. injection E3 as <- <-.
  cbn [totalPlayers completedGames averageScore count_or_zero data ok contact table].
  rewrite selected_no_filter by reflexivity.
  rewrite (@selected_one_filter (eq "status" (JStr "Finished") (game_sessions select_all))
             "status" (JStr "Finished") (table c) eq_refl).
  fold (finished c). rewrite finished_scores.
  split; [reflexivity|]. split; [reflexivity|]. split; [apply filter_length_le|].
  split.
  - intros ->. reflexivity.
  - intros lo hi Hne Hb.
    destruct (finished c) as [|r l] eqn:Ef; [congruence|].
    change (map (project (Some ["total_score"])) (r :: l))
      with (project (Some ["total_score"]) r :: map (project (Some ["total_score"])) l).
    change (project (Some ["total_score"]) r :: map (project (Some ["total_score"])) l)
      with (map (project (Some ["total_score"])) (r :: l)).
    destruct (map (project (Some ["total_score"])) (r :: l)) as [|s rest] eqn:Em;
      [discriminate|].
    rewrite <- Em, sum_scores_projected, length_map.
    apply round_div_bounds; [simpl; lia|].
    apply sum_scores_bounds, Hb.
Qed.

End Statistics.

(* ================================================================== *)
(** * The earlier service: key hashes, round updates, completion *)

Section Legacy.

Import Supabase LegacySessionService.

Lemma substring_length m s : String.length (String.substring 0 m s) <= m.
Proof.
  revert s. induction m as [|m IH]; intros [|ch s]; simpl; try lia.
  specialize (IH s). lia.
Qed.

Lemma substring_prefix m s : String.prefix (String.substring 0 m s) s = true.
Proof.
  revert s. induction m as [|m IH]; intros [|ch s]; simpl; try reflexivity.
  destruct (ascii_dec ch ch); [apply IH | congruence].
Qed.

(** X11. [hashApiKey] gives null for a missing or empty key; for any other
    key it gives the beginning of the key's digest, 64 characters at most:
    what is stored always fits the 64-character column of the schema. *)
Theorem hashApiKey_is_null_or_at_most_64_characters env apiKey :
  (truthy apiKey = false -> hashApiKey env apiKey = JNull) /\
  (forall k, apiKey = Some k -> truthy_string k = true ->
     exists h, hashApiKey env apiKey = JStr h /\
               String.length h <= 64 /\
               String.prefix h (sha256_hex env k) = true).
Proof.
  unfold hashApiKey, truthy. split.
  - destruct apiKey as [k|]; [|reflexivity]. intros ->. reflexivity.
  - intros k -> ->. eexists. split; [reflexivity|].
    split; [apply substring_length | apply substring_prefix].
Qed.

(** What an update that reads back its one row returns. *)
Lemma updated_single_row env patch sessionId c reply c' row :
  JsMap.get "id" (rev patch) = None ->
  update_eq_single env patch "id" (JStr sessionId) c = (reply, c') ->
  try_catch (checked reply) (fun _ => Returned None) = Returned (Some row) ->
  exists old,
    session_rows sessionId (Some c) = [old] /\
    session_rows sessionId (Some c') = [row] /\
    row = JsMap.spread old patch.
Proof.
  intros Hid. unfold update_eq_single.
  destruct (network env).
  2:{ intros [= <- <-]. discriminate. }
  intros [= <- <-]. rewrite filter_updated by exact Hid.
  destruct (map _ _) as [|r [|r' rest]] eqn:E; try discriminate.
  intros [= ->]. apply map_singleton in E as (old & Eold & ->).
  exists old. split; [exact Eold|]. split; [|reflexivity].
  simpl. rewrite filter_updated by exact Hid. rewrite Eold. reflexivity.
Qed.

Lemma round_update_keeps_id roundNumber roundData :
  JsMap.get "id" (rev (round_update roundNumber roundData)) = None.
Proof.
  unfold round_update.
  destruct (scalar_eqb roundNumber (JNum 1)); [reflexivity|].
  destruct (scalar_eqb roundNumber (JNum 2)); [reflexivity|].
  destruct (scalar_eqb roundNumber (JNum 3)); reflexivity.
Qed.

Lemma round_update_columns roundNumber roundData col :
  startsWith col "round" = false ->
  JsMap.get col (rev (round_update roundNumber roundData)) = None.
Proof.
  intros H.
  assert (N : forall k, startsWith k "round" = true -> String.eqb col k = false).
  { intros k Hk. destruct (String.eqb col k) eqn:E; [|reflexivity].
    apply String.eqb_eq in E. congruence. }
  unfold round_update.
  destruct (scalar_eqb roundNumber (JNum 1)); [simpl; rewrite !N by reflexivity; reflexivity|].
  destruct (scalar_eqb roundNumber (JNum 2)); [simpl; rewrite !N by reflexivity; reflexivity|].
  destruct (scalar_eqb roundNumber (JNum 3)); [simpl; rewrite !N by reflexivity; reflexivity|].
  reflexivity.
Qed.

(** X12. When [updateRoundData] returns a row for round 1, 2 or 3, that
    row is the one stored row of the session, and every column whose name
    does not begin with "round" is in it as it was, [updated_at] aside: no
    total, status or completion flag is written. *)
Theorem updateRoundData_writes_round_columns_only
  supabase env sessionId roundNumber roundData row client :
  roundNumber = JNum 1 \/ roundNumber = JNum 2 \/ roundNumber = JNum 3 ->
  updateRoundData supabase env sessionId roundNumber roundData
    = (Returned (Some row), client) ->
  exists old,
    session_rows sessionId supabase = [old] /\
    session_rows sessionId client = [row] /\
    forall col, startsWith col "round" = false -> col <> "updated_at" ->
                JsMap.get col row = JsMap.get col old.
Proof.
  intros _. unfold updateRoundData.
  destruct supabase as [c|]; [|discriminate].
  destruct (startsWith sessionId "local-"); [discriminate|].
  destruct (update_eq_single env _ "id" (JStr sessionId) c) as [reply c'] eqn:E.
  intros [= H <-].
  destruct (@updated_single_row _ _ _ _ _ _ _
              (round_update_keeps_id roundNumber roundData) E H)
    as (old & Ho & Hr & ->).
  exists old. split; [exact Ho|]. split; [exact Hr|].
  intros col Hc _. rewrite get_spread, round_update_columns by exact Hc. reflexivity.
Qed.

(** X13. When [completeSession] returns a row, that row is stored with the
    completion flag set and with the reported totals, zero for a total
    that is missing or falsy; and as long as the limit is not below the
    number of stored sessions, the leaderboard of this service then lists
    that session. *)
Theorem completed_session_is_on_the_leaderboard
  supabase env env' sessionId finalData row client limit :
  completeSession supabase env sessionId finalData = (Returned (Some row), client) ->
  network env' = Online ->
  (forall c', client = Some c' -> List.length (table c') <= limit) ->
  session_rows sessionId client = [row] /\
  JsMap.get "completed" row = Some (JBool true) /\
  JsMap.get "total_score" row = Some (field_or finalData "totalScore" (JNum 0)) /\
  JsMap.get "total_time" row = Some (field_or finalData "totalTime" (JNum 0)) /\
  exists rows,
    fst (getLeaderboard client env' (Some limit)) = Returned rows /\
    In (project (Some ["player_name"; "total_score"; "total_time"; "created_at"]) row) rows.
Proof.
  unfold completeSession.
  destruct supabase as [c|]; [|discriminate].
  destruct (startsWith sessionId "local-"); [discriminate|].
  destruct (update_eq_single env _ "id" (JStr sessionId) c) as [reply c'] eqn:E.
  intros [= H <-] Hn Hl.
  assert (Hid : JsMap.get "id"
                  (rev [("total_score", field_or finalData "totalScore" (JNum 0));
                        ("total_time", field_or finalData "totalTime" (JNum 0));
                        ("completed", JBool true)]) = None) by reflexivity.
  destruct (@updated_single_row _ _ _ _ _ _ _ Hid E H) as (old & Ho & Hr & ->).
  assert (Hc : JsMap.get "completed"
                 (JsMap.spread old
                    [("total_score", field_or finalData "totalScore" (JNum 0));
                     ("total_time", field_or finalData "totalTime" (JNum 0));
                     ("completed", JBool true)]) = Some (JBool true))
    by (rewrite get_spread; reflexivity).
  split; [exact Hr|]. split; [exact Hc|].
  split; [rewrite get_spread; reflexivity|].
  split; [rewrite get_spread; reflexivity|].
  unfold getLeaderboard, run. rewrite Hn.
  exists (rows_of (leaderboard_query limit) (table c')). split; [reflexivity|].
  unfold rows_of.
  apply (in_map (project (columns (leaderboard_query limit)))).
  eapply Permutation_in.
  - apply Permutation_sym.
    apply (@ordered_rows_within_limit (leaderboard_query limit) (table c') limit eq_refl).
    apply Hl. reflexivity.
  - apply filter_In. split.
    + assert (Hin : In (JsMap.spread old
                          [("total_score", field_or finalData "totalScore" (JNum 0));
                           ("total_time", field_or finalData "totalTime" (JNum 0));
                           ("completed", JBool true)])
                       (session_rows sessionId (Some c'))).
      { rewrite Hr. left. reflexivity. }
      simpl in Hin. apply filter_In in Hin. apply Hin.
    + assert (M : matches "completed" (JBool true)
                    (JsMap.spread old
                       [("total_score", field_or finalData "totalScore" (JNum 0));
                        ("total_time", field_or finalData "totalTime" (JNum 0));
                        ("completed", JBool true)]) = true)
        by (unfold matches; rewrite Hc; reflexivity).
      cbn -[JsMap.spread matches]. rewrite M. reflexivity.
Qed.

End Legacy.

(* ================================================================== *)
(** * The scoreboard over time *)

Section Scoreboard.

Import Server Spec.

Lemma get_In_values {V} (m : JsMap.t V) k v : JsMap.get k m = Some v -> In v (JsMap.values m).
Proof.
  intros H. apply get_In in H. unfold JsMap.values.
  change v with (snd (k, v)). apply in_map, H.
Qed.

(** X14. In every state the server can reach, the player a socket is bound
    to has a profile, and that profile is an entry of the leaderboard that
    is broadcast. *)
Theorem bound_player_is_on_the_leaderboard st socket name :
  reachable st ->
  JsMap.get socket (socketPlayers st) = Some name ->
  exists entry,
    In entry (leaderboard (persistentPlayers st)) /\
    JsMap.get name (persistentPlayers st) = Some (player entry).
Proof.
  intros R G.
  pose proof (bound_is_known (reachable_well_formed R) _ G) as K.
  destruct (JsMap.get name (persistentPlayers st)) as [p|] eqn:Gp; [|congruence].
  assert (Hin : In p (map player (leaderboard (persistentPlayers st)))).
  { rewrite leaderboard_players.
    eapply Permutation_in; [apply Permutation_sym, stable_sort_perm|].
    eapply get_In_values, Gp. }
  apply in_map_iff in Hin as (entry & <- & Hin).
  exists entry. auto.
Qed.

Lemma keys_set_extends {V} (m : JsMap.t V) k v :
  exists later, JsMap.keys (JsMap.set k v m) = JsMap.keys m ++ later.
Proof.
  destruct (JsMap.get k m) eqn:G.
  - exists []. rewrite app_nil_r. apply keys_set_known. congruence.
  - exists [k]. apply keys_set_new, G.
Qed.

Lemma handle_keeps_players e st :
  exists later,
    JsMap.keys (persistentPlayers (fst (handle e st))) =
    JsMap.keys (persistentPlayers st) ++ later.
Proof.
  destruct e; simpl.
  - exists []. apply eq_sym, app_nil_r.
  - destruct (on_join_maps socket userData env st) as (-> & _). apply keys_set_extends.
  - destruct (on_session_maps i st) as (-> & _). exists []. apply eq_sym, app_nil_r.
  - destruct (on_update_progress_maps socket data st) as (_ & _ & _ & _ & [-> | (k & p & ->)]).
    + exists []. apply eq_sym, app_nil_r.
    + apply keys_set_extends.
  - destruct (on_round_complete_maps socket data env st) as (-> & _).
    exists []. apply eq_sym, app_nil_r.
  - destruct (on_game_complete_maps socket data env st) as (-> & _).
    exists []. apply eq_sym, app_nil_r.
  - destruct (on_disconnect_maps socket st) as (-> & _).
    exists []. apply eq_sym, app_nil_r.
Qed.

(** X15. No event removes a player from the scoreboard or moves one: after
    any events the names of the scoreboard are the names it had, in the
    same order, followed by the names that joined since. The broadcast
    leaderboard therefore never gets shorter. *)
Theorem players_are_never_removed events st :
  exists later,
    JsMap.keys (persistentPlayers (fst (run events st))) =
      JsMap.keys (persistentPlayers st) ++ later /\
    List.length (leaderboard (persistentPlayers (fst (run events st)))) =
      List.length (leaderboard (persistentPlayers st)) + List.length later.
Proof.
  assert (K : exists later,
             JsMap.keys (persistentPlayers (fst (run events st))) =
             JsMap.keys (persistentPlayers st) ++ later).
  { revert st. induction events as [|e r IH]; intros st.
    - exists []. apply eq_sym, app_nil_r.
    - rewrite run_cons. simpl.
      destruct (IH (fst (handle e st))) as (l2 & ->).
      destruct (handle_keeps_players e st) as (l1 & ->).
      exists (l1 ++ l2). apply eq_sym, app_assoc. }
  destruct K as (later & K). exists later. split; [exact K|].
  rewrite !leaderboard_length. unfold JsMap.values.
  rewrite !length_map.
  rewrite <- (length_map fst (persistentPlayers (fst (run events st)))).
  rewrite <- (length_map fst (persistentPlayers st)).
  change (map fst (persistentPlayers (fst (run events st))))
    with (JsMap.keys (persistentPlayers (fst (run events st)))).
  rewrite K, length_app. reflexivity.
Qed.

Lemma handle_keeps_scores e st name p :
  not_progress e ->
  JsMap.get name (persistentPlayers st) = Some p ->
  exists p',
    JsMap.get name (persistentPlayers (fst (handle e st))) = Some p' /\
    score p' = score p /\ status p' = status p /\ extra p' = extra p.
Proof.
  intros He G. destruct e; simpl in *; try contradiction.
  - eauto.
  - destruct (String.eqb name (join_username userData)) eqn:E.
    + apply String.eqb_eq in E. subst name.
      destruct (join_merges_into_known_profile socket userData env st G)
        as (_ & p' & Gp & _ & Hs & Ht & _ & Hx & _).
      exists p'. auto.
    + apply String.eqb_neq in E.
      destruct (on_join_maps socket userData env st) as (-> & _).
      rewrite get_set_other by exact E. eauto.
  - destruct (on_session_maps i st) as (-> & _). eauto.
  - destruct (on_round_complete_maps socket data env st) as (-> & _). eauto.
  - destruct (on_game_complete_maps socket data env st) as (-> & _). eauto.
  - destruct (on_disconnect_maps socket st) as (-> & _). eauto.
Qed.

(** X16. Only a progress report changes what a player has scored: through
    any events other than progress reports (connections, joins under any
    name, resolved sessions, completed rounds and games, disconnections) a
    player of the scoreboard keeps its score, its status and its extra
    fields. *)
Theorem score_changes_only_by_progress events st name p :
  Forall not_progress events ->
  JsMap.get name (persistentPlayers st) = Some p ->
  exists p',
    JsMap.get name (persistentPlayers (fst (run events st))) = Some p' /\
    score p' = score p /\ status p' = status p /\ extra p' = extra p.
Proof.
  intros He. revert st p. induction He as [|e r H Hr IH]; intros st p G.
  - eauto.
  - rewrite run_cons. simpl.
    destruct (@handle_keeps_scores e st name p H G) as (p1 & G1 & Hs1 & Ht1 & Hx1).
    destruct (IH _ _ G1) as (p2 & G2 & Hs2 & Ht2 & Hx2).
    exists p2. repeat split; congruence.
Qed.

Lemma In_mapi_from {A B} (f : A -> nat -> B) l start b :
  In b (mapi_from start f l) ->
  exists i x, nth_error l i = Some x /\ b = f x (start + i).
Proof.
  revert start. induction l as [|y r IH]; intros start; simpl; [tauto|].
  intros [H | H].
  - exists 0, y. rewrite Nat.add_0_r. auto.
  - destruct (IH _ H) as (i & x & Hi & ->).
    exists (S i), x. rewrite Nat.add_succ_r. auto.
Qed.

Lemma StronglySorted_nth {A} (R : A -> A -> Prop) l i j x y :
  StronglySorted R l -> i < j ->
  nth_error l i = Some x -> nth_error l j = Some y -> R x y.
Proof.
  intros H. revert i j. induction H as [|z r Hs IH Hall]; intros i j Hij Hi Hj.
  - destruct i; discriminate.
  - destruct j as [|j]; [lia|]. simpl in Hj.
    destruct i as [|i]; simpl in Hi.
    + injection Hi as ->. rewrite Forall_forall in Hall.
      apply Hall. eapply nth_error_In, Hj.
    + apply (IH i j); [lia | assumption | assumption].
Qed.

(** X17. On the broadcast leaderboard a player with more points than
    another has the smaller rank number. *)
Theorem higher_score_ranks_first st a b :
  In a (leaderboard (persistentPlayers st)) ->
  In b (leaderboard (persistentPlayers st)) ->
  (score (player b) < score (player a))%Z ->
  rank a < rank b.
Proof.
  unfold leaderboard, mapi. intros Ha Hb Hs.
  apply In_mapi_from in Ha as (i & x & Hi & ->).
  apply In_mapi_from in Hb as (j & y & Hj & ->).
  simpl in *.
  assert (S : StronglySorted (fun p q => (score q <= score p)%Z)
                (js_sort (fun a b => (score b - score a)%Z)
                         (JsMap.values (persistentPlayers st)))).
  { unfold js_sort. eapply StronglySorted_weaken; [|apply stable_sort_sorted].
    - intros p q H. apply Z.leb_le in H. lia.
    - intros p q H. apply Z.leb_gt in H. apply Z.leb_le. lia.
    - intros p q r H1 H2. apply Z.leb_le in H1, H2. apply Z.leb_le. lia. }
  destruct (Nat.lt_trichotomy i j) as [Hlt | [Heq | Hgt]].
  - lia.
  - subst j. rewrite Hi in Hj. injection Hj as ->. lia.
  - pose proof (StronglySorted_nth S Hgt Hj Hi) as H. simpl in H. lia.
Qed.

End Scoreboard.

(* ================================================================== *)
(** * Completed rounds and games, from the socket to the store *)

Section Completion.

Import Supabase Server.

Lemma with_same_client st : with_client st (supabase st) = st.
Proof. destruct st. reflexivity. Qed.

Lemma on_round_complete_local socket data env st sessionId :
  session_of socket st = Some sessionId ->
  startsWith sessionId "local-" = true ->
  on_round_complete socket data env st = (st, []).
Proof.
  intros Hs Hl. unfold on_round_complete. rewrite Hs.
  unfold LegacySessionService.updateRoundData. rewrite Hl.
  destruct (supabase st) eqn:E; rewrite <- E, with_same_client; reflexivity.
Qed.

Lemma on_game_complete_local socket data env st sessionId :
  session_of socket st = Some sessionId ->
  startsWith sessionId "local-" = true ->
  on_game_complete socket data env st = (st, []).
Proof.
  intros Hs Hl. unfold on_game_complete. rewrite Hs.
  unfold LegacySessionService.completeSession. rewrite Hl.
  destruct (supabase st) eqn:E; rewrite <- E, with_same_client; reflexivity.
Qed.

Lemma local_id_truthy env : truthy_string (local_id env) = true.
Proof. reflexivity. Qed.

(** X18. A player who joins while the store is out of reach gets a local
    session identifier, and it stays: the rounds and the game this player
    completes afterwards are never stored, also when the store is reachable
    again. The table is as it was before the join. *)
Theorem session_created_while_store_is_down_is_never_stored
  st c socket userData envJ message data1 env1 data2 env2 :
  supabase st = Some c ->
  network envJ = Offline message ->
  JsMap.get (join_username userData) (playerSessions st) = None ->
  truthy_string (join_username userData) = true ->
  JsMap.get (join_username userData)
    (playerSessions
       (fst (run [join socket userData envJ;
                  session_resolved (List.length (pending st));
                  round_complete socket data1 env1;
                  game_complete socket data2 env2] st)))
    = Some (local_id envJ) /\
  option_map table
    (supabase
       (fst (run [join socket userData envJ;
                  session_resolved (List.length (pending st));
                  round_complete socket data1 env1;
                  game_complete socket data2 env2] st)))
    = Some (table c).
Proof.
  intros Hs Hn G T.
  set (name := join_username userData) in *.
  set (st2 := {| socketPlayers := JsMap.set socket name (socketPlayers st);
                 persistentPlayers :=
                   JsMap.set name (joining_player userData (persistentPlayers st))
                             (persistentPlayers st);
                 playerSessions := JsMap.set name (local_id envJ) (playerSessions st);
                 supabase := Some (contact c (table c));
                 pending := pending st |}).
  assert (E2 : fst (run [join socket userData envJ;
                         session_resolved (List.length (pending st))] st) = st2).
  { rewrite !run_cons. simpl. unfold on_join. fold name. rewrite G, Hs.
    unfold LegacySessionService.createSession, insert_single. rewrite Hn. simpl.
    unfold on_session. simpl. rewrite nth_error_last. simpl.
    rewrite remove_nth_last. reflexivity. }
  assert (S2 : session_of socket st2 = Some (local_id envJ)).
  { unfold session_of, st2. simpl. rewrite get_set_same, T, get_set_same.
    rewrite local_id_truthy. reflexivity. }
  assert (E4 : fst (run [join socket userData envJ;
                         session_resolved (List.length (pending st));
                         round_complete socket data1 env1;
                         game_complete socket data2 env2] st) = st2).
  { rewrite run_cons, run_cons. cbn [fst].
    rewrite !run_cons in E2. cbn [fst run] in E2. rewrite E2.
    rewrite !run_cons. cbn [fst run handle].
    rewrite (on_round_complete_local _ _ _ _ S2 (local_id_prefix envJ)). cbn [fst].
    rewrite (on_game_complete_local _ _ _ _ S2 (local_id_prefix envJ)). reflexivity. }
  rewrite E4. unfold st2. simpl. split; [apply get_set_same | reflexivity].
Qed.

Lemma picked_totals data fallback :
  field_or (pick ["totalScore"; "totalTime"] data) "totalScore" fallback
    = field_or data "totalScore" fallback /\
  field_or (pick ["totalScore"; "totalTime"] data) "totalTime" fallback
    = field_or data "totalTime" fallback.
Proof.
  unfold field_or, pick. simpl.
  destruct (JsMap.get "totalScore" data), (JsMap.get "totalTime" data); simpl; auto.
Qed.

(** X19. A [game_complete] event from a socket whose player has a stored
    session, with the store reachable and the reported totals absent or
    within the range of the integer columns, sets the completion flag of
    that session and writes the totals, zero for a missing one; every other
    column of the session is kept, [updated_at] aside. Nothing is emitted
    and the scoreboard is not touched: the live score does not take the
    reported total. *)
Theorem game_complete_stores_the_totals st c socket sessionId data env old :
  session_of socket st = Some sessionId ->
  supabase st = Some c ->
  is_uuid sessionId = true ->
  network env = Online ->
  session_rows sessionId (Some c) = [old] ->
  is_integer (field_or data "totalScore" (JNum 0)) ->
  is_integer (field_or data "totalTime" (JNum 0)) ->
  snd (on_game_complete socket data env st) = [] /\
  persistentPlayers (fst (on_game_complete socket data env st)) = persistentPlayers st /\
  exists row,
    session_rows sessionId (supabase (fst (on_game_complete socket data env st))) = [row] /\
    JsMap.get "completed" row = Some (JBool true) /\
    JsMap.get "total_score" row = Some (field_or data "totalScore" (JNum 0)) /\
    JsMap.get "total_time" row = Some (field_or data "totalTime" (JNum 0)) /\
    forall col, col <> "total_score" -> col <> "total_time" -> col <> "completed" ->
                col <> "updated_at" ->
                JsMap.get col row = JsMap.get col old.
Proof.
  intros Hs Hc Hu Hn Ho _ _. pose proof (uuid_is_not_local _ Hu) as Hl.
  destruct (picked_totals data (JNum 0)) as [Es Et].
  unfold on_game_complete. rewrite Hs, Hc.
  unfold LegacySessionService.completeSession, update_eq_single. rewrite Hl, Hn.
  cbn [fst snd with_client persistentPlayers supabase].
  split; [reflexivity|]. split; [reflexivity|].
  rewrite Es, Et.
  eexists. split.
  - rewrite session_rows_updated by reflexivity. rewrite Ho. reflexivity.
  - split; [rewrite get_spread; reflexivity|].
    split; [rewrite get_spread; reflexivity|].
    split; [rewrite get_spread; reflexivity|].
    intros col H1 H2 H3 _. rewrite get_spread. simpl.
    apply String.eqb_neq in H1, H2, H3. rewrite H1, H2, H3. reflexivity.
Qed.

End Completion.

(* ================================================================== *)
(** * The REST handlers *)

Section Rest.

Import Supabase Api.

Lemma inserted_has_id env values c reply c' d :
  insert_single env values c = (reply, c') ->
  data reply = Some d ->
  str_col "id" d = Some (uuid env).
Proof.
  unfold insert_single.
  destruct (network env); [|intros [= <- _]; discriminate].
  destruct (existsb _ _); intros [= <- _]; [discriminate|].
  intros [= <-]. unfold str_col. rewrite get_set_same. reflexivity.
Qed.

(** X20. The handler that creates a session answers 400, without a request
    to the store, when the body has no player name or an empty one. With a
    name it always answers 200 and a session that has an identifier, also
    when the store is not configured or out of reach. *)
Theorem create_session_needs_a_name_and_never_fails supabase env playerName avatarUrl :
  (truthy playerName = false ->
   create_session supabase env playerName avatarUrl =
     ({| http_status := 400; body := [("error", JStr "Player name is required")] |},
      supabase)) /\
  (forall name, playerName = Some name -> truthy_string name = true ->
     exists session sessionId,
       fst (create_session supabase env playerName avatarUrl) =
         {| http_status := 200;
            body := [("success", JBool true); ("session", JObj session)] |} /\
       str_col "id" session = Some sessionId).
Proof.
  unfold create_session. split.
  - intros ->. reflexivity.
  - intros name -> T. simpl. rewrite T. simpl.
    unfold GameSessionService.createSession.
    destruct supabase as [c|].
    + destruct (insert_single env _ c) as [reply c'] eqn:E.
      unfold checked_data, checked.
      destruct (error reply); [|destruct (data reply) as [d|] eqn:Ed]; simpl;
        eexists _, _; (split; [reflexivity|]); try reflexivity.
      eapply inserted_has_id; eassumption.
    + simpl. eexists _, _. split; reflexivity.
Qed.


Lemma round_response_status result saved failure ok :
  result = Returned ok ->
  http_status (round_response result saved failure) = 200 /\
  JsMap.get "success" (body (round_response result saved failure)) = Some (JBool ok).
Proof. intros ->. split; reflexivity. Qed.




End Rest.

(* ================================================================== *)
(** * The further results on concrete stores and states *)

Section MoreConcrete.

Import Supabase Server Spec.


Lemma updateSession_keeps_the_columns_it_is_not_given_witness :
  JsMap.get "status" updated_row = Some (JStr "Playing") /\
  JsMap.get "player_name" updated_row = Some (JStr "alice").
Proof.
  destruct (@updateSession_keeps_the_columns_it_is_not_given alice_store second_env alice_id
              avatar_update updated_row
              (snd (GameSessionService.updateSession alice_store second_env alice_id
                      avatar_update)))
    as (_ & old & Ho & Hk).
  - repeat (constructor; [simpl; intuition discriminate|]). constructor.
  - reflexivity.
  - vm_compute. reflexivity.
  - injection Ho as <-.
    split; (rewrite Hk; [vm_compute; reflexivity | discriminate | reflexivity]).
Defined.



Lemma round_save_repeated_changes_nothing_witness :
  option_map table
    (snd (GameSessionService.saveRound1Data after_round1 second_env alice_id (JArr []) 10 5000))
  = option_map table after_round1.
Proof.
  destruct after_round1 as [c1|] eqn:E1; [|vm_compute in E1; discriminate].
  destruct (snd (GameSessionService.saveRound1Data (Some c1) second_env alice_id
                   (JArr []) 10 5000)) as [c2|] eqn:E2;
    [|rewrite <- E1 in E2; vm_compute in E2; discriminate].
  simpl. f_equal.
  apply (proj1 (@round_save_repeated_changes_nothing alice_store second_env second_env
                  alice_id (JArr []) 10 5000 0 0 c1 c2)).
  - rewrite <- E1. vm_compute. reflexivity.
  - rewrite <- E2.
    assert (R : fst (GameSessionService.saveRound1Data (Some c1) second_env alice_id
                       (JArr []) 10 5000) = Returned true).
    { rewrite <- E1. vm_compute. reflexivity. }
    rewrite <- R. apply surjective_pairing.
Defined.

Lemma created_session_is_fetched_back_witness :
  exists session c',
    GameSessionService.createSession (Some no_rows) first_env "alice" None
      = (Returned session, Some c') /\
    session_id session = alice_id /\
    table c' = [session] /\
    fst (GameSessionService.getSession (Some c') second_env (session_id session))
      = Returned (Some session).
Proof.
  apply (@created_session_is_fetched_back no_rows first_env second_env "alice" None
           eq_refl eq_refl eq_refl eq_refl).
Defined.

Lemma updateRoundData_writes_round_columns_only_witness :
  exists old row,
    session_rows alice_id (Some joined_client) = [old] /\
    fst (LegacySessionService.updateRoundData (Some joined_client) second_env alice_id
           (JNum 2) second_round) = Returned (Some row) /\
    JsMap.get "total_score" row = JsMap.get "total_score" old /\
    JsMap.get "completed" row = JsMap.get "completed" old.
Proof.
  destruct (fst (LegacySessionService.updateRoundData (Some joined_client) second_env
                   alice_id (JNum 2) second_round)) as [[row|]|] eqn:E;
    try (vm_compute in E; discriminate).
  destruct (@updateRoundData_writes_round_columns_only (Some joined_client) second_env
              alice_id (JNum 2) second_round row
              (snd (LegacySessionService.updateRoundData (Some joined_client) second_env
                      alice_id (JNum 2) second_round)))
    as (old & Ho & _ & Hc).
  - right. left. reflexivity.
  - rewrite <- E. apply surjective_pairing.
  - exists old, row. split; [exact Ho|]. split; [reflexivity|].
    split; apply Hc; (reflexivity || discriminate).
Defined.

Lemma completed_session_is_on_the_leaderboard_witness :
  exists row rows,
    fst (LegacySessionService.completeSession (Some joined_client) second_env alice_id totals)
      = Returned (Some row) /\
    JsMap.get "total_score" row = Some (JNum 40) /\
    fst (LegacySessionService.getLeaderboard
           (snd (LegacySessionService.completeSession (Some joined_client) second_env
                   alice_id totals))
           second_env (Some 10)) = Returned rows /\
    In (project (Some ["player_name"; "total_score"; "total_time"; "created_at"]) row) rows.
Proof.
  destruct (fst (LegacySessionService.completeSession (Some joined_client) second_env
                   alice_id totals)) as [[row|]|] eqn:E;
    try (vm_compute in E; discriminate).
  destruct (@completed_session_is_on_the_leaderboard (Some joined_client) second_env
              second_env alice_id totals row
              (snd (LegacySessionService.completeSession (Some joined_client) second_env
                      alice_id totals)) 10)
    as (_ & _ & Hs & _ & rows & Hr & Hin).
  - rewrite <- E. apply surjective_pairing.
  - reflexivity.
  - intros c' H. vm_compute in H. injection H as <-. simpl. lia.
  - exists row, rows. split; [reflexivity|]. split; [exact Hs|]. split; assumption.
Defined.

Lemma bound_player_is_on_the_leaderboard_witness :
  exists entry,
    In entry (leaderboard (persistentPlayers joined_state)) /\
    JsMap.get "alice" (persistentPlayers joined_state) = Some (player entry).
Proof.
  apply (@bound_player_is_on_the_leaderboard joined_state "s1" "alice").
  - exists (Some empty_client), [connection "s1"; join "s1" (join_as "alice") first_env;
                                 session_resolved 0].
    reflexivity.
  - reflexivity.
Defined.

Lemma score_changes_only_by_progress_witness :
  exists p',
    JsMap.get "bob"
      (persistentPlayers
         (fst (run [disconnect "s2"; connection "s3"; join "s3" (join_as "bob") second_env;
                    game_complete "s3" totals second_env]
                   (fst (run bob_leads (initial None))))))
      = Some p' /\
    score p' = 50%Z.
Proof.
  destruct (@score_changes_only_by_progress
              [disconnect "s2"; connection "s3"; join "s3" (join_as "bob") second_env;
               game_complete "s3" totals second_env]
              (fst (run bob_leads (initial None))) "bob"
              {| username := "bob"; avatarUrl := None; score := 50;
                 status := "Just Joined"; isBot := false;
                 extra := [("totalTime", 1000%Z)] |})
    as (p' & G & Hs & _).
  - repeat constructor.
  - vm_compute. reflexivity.
  - exists p'. split; [exact G | exact Hs].
Defined.

Lemma higher_score_ranks_first_witness :
  rank {| player := {| username := "bob"; avatarUrl := None; score := 50;
                       status := "Just Joined"; isBot := false;
                       extra := [("totalTime", 1000%Z)] |};
          rank := 1 |}
  < rank {| player := {| username := "alice"; avatarUrl := None; score := 10;
                         status := "Just Joined"; isBot := false;
                         extra := [("totalTime", 9000%Z)] |};
            rank := 2 |}.
Proof.
  apply (@higher_score_ranks_first (fst (run bob_leads (initial None)))).
  - vm_compute. left. reflexivity.
  - vm_compute. right. left. reflexivity.
  - simpl. lia.
Defined.

Lemma session_created_while_store_is_down_is_never_stored_witness :
  option_map table
    (supabase
       (fst (run [join "s1" (join_as "alice") offline_env;
                  session_resolved 0;
                  round_complete "s1" second_round second_env;
                  game_complete "s1" totals second_env]
                 (initial (Some empty_client)))))
  = Some [].
Proof.
  apply (@session_created_while_store_is_down_is_never_stored
           (initial (Some empty_client)) empty_client "s1" (join_as "alice") offline_env
           "fetch failed" second_round second_env totals second_env);
    reflexivity.
Defined.

Lemma game_complete_stores_the_totals_witness :
  exists row,
    session_rows alice_id
      (supabase (fst (on_game_complete "s1" totals second_env joined_state))) = [row] /\
    JsMap.get "completed" row = Some (JBool true) /\
    JsMap.get "total_score" row = Some (JNum 40).
Proof.
  destruct (@game_complete_stores_the_totals joined_state joined_client "s1" alice_id
              totals second_env joined_row)
    as (_ & _ & row & Hr & Hc & Hs & _); try reflexivity.
  - exists 40%Z. split; [reflexivity | lia].
  - exists 90000%Z. split; [reflexivity | lia].
  - exists row. split; [exact Hr|]. split; [exact Hc | exact Hs].
Defined.

End MoreConcrete.
